(** * podcast_rss: a shallow embedding of the Nikola podcast feed plug-in

    The plug-in (v7/podcast_rss/podcast_rss.py) is a Python module.  Its
    functions are embedded as Rocq functions over a small universe of Python
    values; a raised exception is an explicit result, a dictionary is a finite
    map, and calls that leave the process (HTTP requests, metadata providers)
    are recorded in an event log threaded through the computation.  Objects
    owned by the host (Nikola posts, the feed library, the standard library)
    are taken as records of the operations the module calls on them. *)

From Stdlib Require Import ZArith List Bool Lia Ascii.
From stdpp Require Import gmap strings list fin_maps.
Import ListNotations.

Local Open Scope string_scope.
Local Open Scope Z_scope.
Local Open Scope list_scope.

(** ** Python values *)

(** The values that reach this module: configuration entries, post metadata,
    header fields.  [VTrans] is a callable setting (Nikola's
    TranslatableSetting, called with a language); [VObj] is an object the
    module only passes around (a module, a function, a class instance). *)
#[warnings="-register-all"]
Inductive value : Type :=
| VNone
| VBool (b : bool)
| VInt (n : Z)
| VStr (s : string)
| VList (items : list value)
| VDict (entries : list (string * value))
| VTrans (f : string -> value)
| VObj (descr : string).

(** Truth value testing, as [if x:] and [x or y] perform it. *)
Definition truthy (v : value) : bool :=
  match v with
  | VNone => false
  | VBool b => b
  | VInt n => negb (n =? 0)
  | VStr s => negb (String.eqb s "")
  | VList items => match items with [] => false | _ => true end
  | VDict entries => match entries with [] => false | _ => true end
  | VTrans _ => true
  | VObj _ => true
  end.

(** ** Exceptions and results *)

Inductive exn : Type :=
| NameError (name : string)
| KeyError (key : string)
| TypeError (what : string)
| HostError (what : string).

Inductive result (A : Type) : Type :=
| Ok (a : A)
| Raise (e : exn).
Arguments Ok {A} a.
Arguments Raise {A} e.

Definition bind {A B : Type} (c : result A) (k : A -> result B) : result B :=
  match c with
  | Ok a => k a
  | Raise e => Raise e
  end.

Declare Scope py_scope.
Delimit Scope py_scope with py.
Notation "'let*' x ':=' c 'in' k" := (bind c (fun x => k))
  (at level 10, x name, c at level 200, k at level 200) : py_scope.
Local Open Scope py_scope.

(** ** Calls that leave the process *)

Inductive event : Type :=
| EvHead (url : string)
| EvProvider (url : value).

(** A computation that may perform such calls: it extends the log of the
    calls made so far and returns or raises. *)
Definition M (A : Type) : Type := list event -> result A * list event.

Definition ret {A : Type} (a : A) : M A := fun log => (Ok a, log).

Definition lift {A : Type} (c : result A) : M A := fun log => (c, log).

Definition bindM {A B : Type} (c : M A) (k : A -> M B) : M B :=
  fun log =>
    match c log with
    | (Ok a, log') => k a log'
    | (Raise e, log') => (Raise e, log')
    end.

Notation "'let!' x ':=' c 'in' k" := (bindM c (fun x => k))
  (at level 10, x name, c at level 200, k at level 200) : py_scope.

(** ** Dictionaries *)

(** [d[key]] on a dict value with string keys. *)
Fixpoint assoc (key : string) (entries : list (string * value))
    : option value :=
  match entries with
  | [] => None
  | (k, v) :: rest => if String.eqb k key then Some v else assoc key rest
  end.

(** [d.get(key, default)]. *)
Definition dict_get (entries : list (string * value)) (key : string)
    (default : value) : value :=
  match assoc key entries with
  | Some v => v
  | None => default
  end.

(** [cfg[key]] on the plug-in's configuration dictionary. *)
Definition getitem (cfg : gmap string value) (key : string) : result value :=
  match cfg !! key with
  | Some v => Ok v
  | None => Raise (KeyError key)
  end.

(** [v[key]] on a value: only a dict can be subscripted by a string. *)
Definition subscript (v : value) (key : string) : result value :=
  match v with
  | VDict entries =>
      match assoc key entries with
      | Some x => Ok x
      | None => Raise (KeyError key)
      end
  | _ => Raise (TypeError "subscript")
  end.

(** [f(lang)]: of the values above only a translatable setting is callable. *)
Definition call (f : value) (lang : string) : result value :=
  match f with
  | VTrans g => Ok (g lang)
  | _ => Raise (TypeError "object is not callable")
  end.

(** [a or b]: [b] is evaluated only when [a] is falsy. *)
Definition py_or (a b : result value) : result value :=
  let* x := a in if truthy x then Ok x else b.

(** ** Names bound at module level *)

(** The global names of podcast_rss.py after its import and def statements
    (lines 5-28, 31, 36, 43, 48, 58, 195), in order of binding. *)
Definition module_globals : list (string * value) :=
  [ ("absolute_import", VObj "__future__.absolute_import");
    ("print_function", VObj "__future__.print_function");
    ("unicode_literals", VObj "__future__.unicode_literals");
    ("os", VObj "module os");
    ("urljoin", VObj "function urljoin");
    ("urlparse", VObj "function urlparse");
    ("requests", VObj "module requests");
    ("FeedGenerator", VObj "class FeedGenerator");
    ("utils", VObj "module nikola.utils");
    ("_nikola_enclosure", VObj "function nikola.nikola._enclosure");
    ("Task", VObj "class Task");
    ("TranslatableSetting", VObj "class TranslatableSetting");
    ("micawber", VObj "module micawber");
    ("register", VObj "function archiveorg.provider.register");
    ("providers", VObj "micawber provider registry");
    ("get_enclosure_metadata", VObj "function get_enclosure_metadata");
    ("get_enclosure_size", VObj "function get_enclosure_size");
    ("get_enclosure_duration", VObj "function get_enclosure_duration");
    ("_enclosure", VObj "function _enclosure");
    ("GeneratePodcastRSS", VObj "class GeneratePodcastRSS");
    ("main", VObj "function main") ].

(** The built-in functions and types of Python 3. *)
Definition builtin_names : list string :=
  [ "abs"; "all"; "any"; "ascii"; "bin"; "bool"; "bytearray"; "bytes";
    "callable"; "chr"; "classmethod"; "compile"; "complex"; "delattr";
    "dict"; "dir"; "divmod"; "enumerate"; "eval"; "exec"; "filter"; "float";
    "format"; "frozenset"; "getattr"; "globals"; "hasattr"; "hash"; "help";
    "hex"; "id"; "input"; "int"; "isinstance"; "issubclass"; "iter"; "len";
    "list"; "locals"; "map"; "max"; "memoryview"; "min"; "next"; "object";
    "oct"; "open"; "ord"; "pow"; "print"; "property"; "range"; "repr";
    "reversed"; "round"; "set"; "setattr"; "slice"; "sorted"; "staticmethod";
    "str"; "sum"; "super"; "tuple"; "type"; "vars"; "zip"; "__import__" ].

(** Reading a name that is not local to the running function: module
    globals first, then built-ins, else NameError. *)
Definition load_global (name : string) : result value :=
  match assoc name module_globals with
  | Some v => Ok v
  | None =>
      if existsb (String.eqb name) builtin_names
      then Ok (VObj name)
      else Raise (NameError name)
  end.

(** ** Iteration, joining and slicing *)

(** The characters of a string, which is held as its UTF-8 bytes: a
    character is a byte that is no continuation byte (10xxxxxx) together
    with the continuation bytes that follow it. *)
Definition continuation_byte (a : ascii) : bool :=
  match a with
  | Ascii _ _ _ _ _ _ b6 b7 => b7 && negb b6
  end.

Fixpoint characters (s : string) : list string :=
  match s with
  | EmptyString => []
  | String a rest =>
      match characters rest with
      | String b tail :: more =>
          if continuation_byte b
          then String a (String b tail) :: more
          else String a "" :: String b tail :: more
      | more => String a "" :: more
      end
  end.

(** The items a [for] loop, a star-argument or [str.join] draws from a
    value. *)
Definition iterate (v : value) : result (list value) :=
  match v with
  | VList items => Ok items
  | VDict entries => Ok (map (fun kv => VStr (fst kv)) entries)
  | VStr s => Ok (map VStr (characters s))
  | _ => Raise (TypeError "object is not iterable")
  end.

(** [sep.join(items)]: every item must be a string. *)
Fixpoint join (sep : string) (items : list value) : result string :=
  match items with
  | [] => Ok ""
  | VStr s :: rest =>
      match rest with
      | [] => Ok s
      | _ => let* tail := join sep rest in Ok (s +:+ sep +:+ tail)
      end
  | _ => Raise (TypeError "sequence item: expected str instance")
  end.

(** [items[:stop]].  A negative stop counts from the end, None keeps
    everything, a bool is the integer 0 or 1. *)
Definition slice_to {A : Type} (items : list A) (stop : value)
    : result (list A) :=
  match stop with
  | VNone => Ok items
  | VInt n =>
      if 0 <=? n then Ok (take (Z.to_nat n) items)
      else Ok (take (length items - Z.to_nat (- n)) items)
  | VBool b => Ok (take (if b then 1%nat else 0%nat) items)
  | _ => Raise (TypeError "slice indices must be integers or None")
  end.

(** A [for] loop whose body may raise: the first exception ends it. *)
Fixpoint for_each {A S : Type} (body : S -> A -> result S) (items : list A)
    (s : S) : result S :=
  match items with
  | [] => Ok s
  | x :: rest => let* s' := body s x in for_each body rest s'
  end.

(** ** Objects owned by the host *)

(** A publish timestamp: the wall-clock reading and the zone it carries, if
    any ([post.date.tzinfo], as an offset from UTC in minutes). *)
Record datetime : Type := {
  wall_clock : Z;
  tzinfo : option Z
}.

(** A Nikola post, through the accessors the plug-in calls. *)
Record Post : Type := {
  (** [post.meta[lang][key]] and [post.meta(key, lang)] *)
  post_meta : string -> string -> value;
  (** [post.meta[lang].get(key)] *)
  post_meta_get : string -> string -> value;
  (** [post.title(lang)] *)
  post_title : string -> value;
  (** [post.description(lang)] *)
  post_description : string -> value;
  (** [post.text(lang, teaser_only, strip_html, feed_read_more_link,
      feed_links_append_query)] *)
  post_text : string -> value -> value -> value -> value -> value;
  (** [post.permalink(lang, absolute=True)] *)
  post_permalink : string -> value;
  (** [post.author(lang)] *)
  post_author : string -> value;
  (** [post.date] *)
  post_date : datetime;
  (** [post.deps(lang)] and [post.deps_uptodate(lang)] *)
  post_deps : string -> list string;
  post_deps_uptodate : string -> list string
}.

(** The feed under construction (feedgen's FeedGenerator and FeedEntry),
    as the arguments the plug-in hands to each setter; a setter that is not
    called leaves its field empty.  [fg_entries] lists the entries in the
    order in which [add_entry] was called, which need not be the order of
    the document: the library puts a new entry where it sees fit.  A setter
    of the library may also refuse its argument; the record keeps what the
    plug-in passed.  Turning the feed into XML is the library's business. *)
Record Link : Type := {
  href : value;
  link_title : value;
  rel : string
}.

Record FeedEntry : Type := {
  fe_title : value;
  fe_content : value;
  fe_summary : value;
  fe_link : Link;
  fe_published : datetime;
  fe_author : option (value * value);
  fe_enclosure : option (value * value * value)
}.

Record FeedGenerator : Type := {
  fg_extensions : list string;
  fg_id : string;
  fg_title : value;
  fg_links : list Link;
  fg_description : value;
  fg_author : value;
  fg_language : string;
  fg_generator : string * string;
  fg_category : option (string * list value);
  fg_icon : option value;
  fg_logo : option value;
  fg_entries : list FeedEntry
}.

(** What the libraries outside the repository compute.  Every theorem below
    holds for all of them. *)
Record Host : Type := {
  (** [TranslatableSetting(name, inp, translations)(lang)] of nikola.utils *)
  TranslatableSetting : string -> value -> value -> string -> value;
  (** [urljoin(base, url, allow_fragments)] of urllib.parse *)
  urljoin : string -> string -> bool -> string;
  (** the header fields of the response to a HEAD request that follows
      redirects, or the exception requests raises *)
  http_head : string -> result (list (string * value));
  (** [providers.request(url)] of micawber *)
  provider_request : value -> result value;
  (** [mimetypes.guess_type(url)[0]] *)
  guess_type : value -> value;
  (** [date.astimezone(obj.tzinfo)] *)
  astimezone : datetime -> value -> result datetime
}.

Section Module.

Variable host : Host.

(** A call of [urljoin] with the positional arguments [args]: it takes two
    or three. *)
Definition call_urljoin (args : list value) : result value :=
  match args with
  | [VStr base; VStr url] => Ok (VStr (urljoin host base url true))
  | [VStr base; VStr url; flag] =>
      Ok (VStr (urljoin host base url (truthy flag)))
  | [_; _] | [_; _; _] =>
      Raise (TypeError "urljoin: cannot mix str and non-str arguments")
  | _ => Raise (TypeError "urljoin() takes from 2 to 3 positional arguments")
  end.

(** A call of [requests.head] with the positional arguments [args] and
    [allow_redirects=True]: it takes one, the URL; the request is logged and
    answered by the host. *)
Definition call_requests_head (args : list value)
    : M (list (string * value)) :=
  match args with
  | [VStr url] => fun log => (http_head host url, log ++ [EvHead url])
  | [_] => lift (Raise (HostError "requests.exceptions.MissingSchema"))
  | _ => lift (Raise (TypeError "head() takes 1 positional argument"))
  end.

(** Lines 31-33. *)
Definition get_enclosure_metadata (url : value) : M value :=
  fun log => (provider_request host url, log ++ [EvProvider url]).

(** Lines 36-40.  The arguments of [requests.head] are evaluated left to
    right, so the first one, [urljoin(base_url, 'download', slug, name)],
    reads the names [slug] and [name] before any call is made; neither is a
    parameter or a local of the function. *)
Definition get_enclosure_size (url : value) (default : value) : M value :=
  let base_url := "https://archive.org/" in
  let! _ := lift (load_global "requests") in
  let! _ := lift (load_global "urljoin") in
  let! slug := lift (load_global "slug") in
  let! name := lift (load_global "name") in
  let! target :=
    lift (call_urljoin [VStr base_url; VStr "download"; slug; name]) in
  let! headers := call_requests_head [target; url] in
  ret (dict_get headers "content-length" default).

(** Lines 43-45. *)
Definition get_enclosure_duration (url : value) : M value :=
  let! data := get_enclosure_metadata url in
  ret data.

(** Lines 48-55, with the function bound to the global name
    [get_enclosure_size] as a parameter.  A function that falls off its end
    returns None; the returned tuple is a three-element [VList]. *)
Definition _enclosure_with (size : value -> value -> M value)
    (post : Post) (lang : string) : M value :=
  let enclosure := post_meta post lang "enclosure" in
  if truthy enclosure then
    let! length := size enclosure (VInt 0) in
    let url := enclosure in
    let! mimetypes := lift (load_global "mimetypes") in
    let mime := guess_type host url in
    ret (VList [url; length; mime])
  else ret VNone.

(** [_enclosure] as the module defines it. *)
Definition _enclosure (post : Post) (lang : string) : M value :=
  _enclosure_with get_enclosure_size post lang.

(** *** class GeneratePodcastRSS *)

(** Lines 66-81: the plug-in's own defaults. *)
Definition default_config : gmap string value :=
  <["PODCAST_RSS_PATH" := VStr "podcast.xml"]>
  (<["PODCAST_POST_CATEGORY" := VStr "podcast"]>
  (<["PODCAST_CHANNEL_TITLE" := VNone]>
  (<["PODCAST_CHANNEL_LINK" := VNone]>
  (<["PODCAST_CHANNEL_DESCRIPTION" := VNone]>
  (<["PODCAST_CHANNEL_AUTHOR" := VNone]>
  (<["PODCAST_CHANNEL_CATEGORY" := VNone]>
  (<["PODCAST_CHANNEL_LOGO" := VNone]> ∅))))))).

(** Lines 85-88, one turn of the loop. *)
Definition wrap_setting (site_config : gmap string value)
    (config : gmap string value) (suffix : string)
    : result (gmap string value) :=
  let name := "PODCAST_CHANNEL_" +:+ suffix in
  let* inp := getitem config name in
  let* translations := getitem site_config "TRANSLATIONS" in
  Ok (<[name := VTrans (TranslatableSetting host name inp translations)]>
        config).

(** Lines 63-90: the configuration the plug-in keeps in [self.config].
    [dict.update] lets the site's entries replace the defaults.  Registering
    the path handler and the call of the parent class belong to the host. *)
Definition set_site (site_config : gmap string value)
    : result (gmap string value) :=
  let config := site_config ∪ default_config in
  for_each (wrap_setting site_config) ["CATEGORY"; "DESCRIPTION"; "TITLE"]
    config.

(** Lines 105-107 of [gen_tasks]: the posts of one language's feed, for
    [cfg['PODCAST_POST_CATEGORY']] the string [category] and
    [cfg['FEED_LENGTH']] the value [feed_length]. *)
Definition in_category (lang category : string) (p : Post) : bool :=
  match post_meta p lang "category" with
  | VStr c => String.eqb c category
  | _ => false
  end.

Definition select_posts (posts : list Post) (lang category : string)
    (feed_length : value) : result (list Post) :=
  slice_to (List.filter (in_category lang category) posts) feed_length.

(** Lines 128-137. *)
Definition rss_path (config : gmap string value) (name lang : string)
    : result (list value) :=
  let* translations := getitem config "TRANSLATIONS" in
  let* prefix := subscript translations lang in
  let* path := getitem config "PODCAST_RSS_PATH" in
  Ok (List.filter truthy [prefix; path]).

(** Lines 190-192. *)
Definition get_author_info (post : Post) (lang : string) : value * value :=
  (post_author post lang, post_meta_get post lang "email").

(** [cfg[key](lang)]. *)
Definition setting (cfg : gmap string value) (key lang : string)
    : result value :=
  let* f := getitem cfg key in call f lang.

(** Lines 146, 149, 152-153 and 154-155: the channel fields that fall back
    on a site-wide setting. *)
Definition channel_title (cfg : gmap string value) (lang : string)
    : result value :=
  py_or (setting cfg "PODCAST_CHANNEL_TITLE" lang)
        (setting cfg "BLOG_TITLE" lang).

Definition channel_link (cfg : gmap string value) : result value :=
  py_or (getitem cfg "PODCAST_CHANNEL_LINK") (getitem cfg "SITE_URL").

Definition channel_description (cfg : gmap string value) (lang : string)
    : result value :=
  py_or (setting cfg "PODCAST_CHANNEL_DESCRIPTION" lang)
        (setting cfg "BLOG_DESCRIPTION" lang).

Definition channel_author (cfg : gmap string value) (lang : string)
    : result value :=
  py_or (getitem cfg "PODCAST_CHANNEL_AUTHOR")
        (let* name := setting cfg "BLOG_AUTHOR" lang in
         let* email := getitem cfg "BLOG_EMAIL" in
         Ok (VDict [("name", name); ("email", email)])).

(** Lines 143-166: the channel. *)
Definition render_channel (cfg : gmap string value) (lang feed_url : string)
    : result FeedGenerator :=
  let* title := channel_title cfg lang in
  let* link := channel_link cfg in
  let* description := channel_description cfg lang in
  let* author := channel_author cfg lang in
  let* has_category := setting cfg "PODCAST_CHANNEL_CATEGORY" lang in
  let* category :=
    if truthy has_category then
      let* parts := setting cfg "PODCAST_CHANNEL_CATEGORY" lang in
      let* items := iterate parts in
      let* joined := join "/" items in
      let* again := setting cfg "PODCAST_CHANNEL_CATEGORY" lang in
      let* args := iterate again in
      Ok (Some (joined, args))
    else Ok None in
  let* has_logo := py_or (getitem cfg "PODCAST_CHANNEL_LOGO")
                         (getitem cfg "LOGO_URL") in
  let* logo :=
    if truthy has_logo then
      let* icon := py_or (getitem cfg "PODCAST_CHANNEL_LOGO")
                         (getitem cfg "LOGO_URL") in
      let* logo := py_or (getitem cfg "PODCAST_CHANNEL_LOGO")
                         (getitem cfg "LOGO_URL") in
      Ok (Some icon, Some logo)
    else Ok (None, None) in
  Ok {| fg_extensions := ["podcast"];
        fg_id := feed_url;
        fg_title := title;
        fg_links := [ {| href := link; link_title := title;
                         rel := "alternate" |};
                      {| href := VStr feed_url; link_title := VNone;
                         rel := "self" |} ];
        fg_description := description;
        fg_author := author;
        fg_language := lang;
        fg_generator := ("Nikola Podcast RSS Plug-in",
                         "https://plugins.getnikola.com/#podcast_rss");
        fg_category := category;
        fg_icon := fst logo;
        fg_logo := snd logo;
        fg_entries := [] |}.

(** Lines 182-183: the argument of [fe.published].  In the method
    [render_podcast_rss] the name [site] is neither a parameter nor
    assigned, so it is read as a global. *)
Definition published (post : Post) : result datetime :=
  match tzinfo (post_date post) with
  | Some _ => Ok (post_date post)
  | None =>
      let* site := load_global "site" in
      astimezone host (post_date post) site
  end.

(** Lines 169-186: the entry of one post. *)
Definition render_entry (cfg : gmap string value) (lang : string)
    (post : Post) : result FeedEntry :=
  let* teaser_only := getitem cfg "FEED_TEASERS" in
  let* strip_html := getitem cfg "FEED_PLAIN" in
  let* feed_read_more_link := getitem cfg "FEED_READ_MORE_LINK" in
  let* feed_links_append_query := getitem cfg "FEED_LINKS_APPEND_QUERY" in
  let content := post_text post lang teaser_only strip_html
                   feed_read_more_link feed_links_append_query in
  let link := post_permalink post lang in
  let '(author_name, author_email) := get_author_info post lang in
  let* date := published post in
  Ok {| fe_title := post_title post lang;
        fe_content := content;
        fe_summary := post_description post lang;
        fe_link := {| href := link; link_title := VNone;
                      rel := "alternate" |};
        fe_published := date;
        fe_author := if truthy author_name || truthy author_email
                     then Some (author_name, author_email)
                     else None;
        fe_enclosure := None |}.

(** [fg.add_entry()] followed by the setters of one turn of the loop. *)
Definition add_entry (fg : FeedGenerator) (fe : FeedEntry) : FeedGenerator :=
  {| fg_extensions := fg_extensions fg;
     fg_id := fg_id fg;
     fg_title := fg_title fg;
     fg_links := fg_links fg;
     fg_description := fg_description fg;
     fg_author := fg_author fg;
     fg_language := fg_language fg;
     fg_generator := fg_generator fg;
     fg_category := fg_category fg;
     fg_icon := fg_icon fg;
     fg_logo := fg_logo fg;
     fg_entries := fg_entries fg ++ [fe] |}.

(** One turn of the loop of lines 168-186. *)
Definition loop_body (cfg : gmap string value) (lang : string)
    (fg : FeedGenerator) (post : Post) : result FeedGenerator :=
  let* fe := render_entry cfg lang post in Ok (add_entry fg fe).

(** Lines 140-188.  The result is the feed handed to [fg.rss_file] for
    [output_name]; an exception raised on the way leaves no feed. *)
Definition render_podcast_rss (cfg : gmap string value) (lang : string)
    (posts : list Post) (output_name feed_url : string) : M FeedGenerator :=
  let! fg := lift (render_channel cfg lang feed_url) in
  let! fg := lift (for_each (loop_body cfg lang) posts fg) in
  ret fg.

(** The four rendering flags that every turn of the loop reads are
    configured. *)
Definition feed_flags (cfg : gmap string value) : Prop :=
  is_Some (cfg !! "FEED_TEASERS") /\ is_Some (cfg !! "FEED_PLAIN") /\
  is_Some (cfg !! "FEED_READ_MORE_LINK") /\
  is_Some (cfg !! "FEED_LINKS_APPEND_QUERY").

End Module.

(** ** Reading the site's settings *)

(** The value of [key] once the site's entries have replaced the defaults,
    for a key whose default is None. *)
Definition override (site_config : gmap string value) (key : string) : value :=
  match site_config !! key with
  | Some v => v
  | None => VNone
  end.

(** The channel fields the feed cannot do without, and the site-wide
    setting each one falls back on. *)
Inductive required_field : Type := TitleField | LinkField | DescriptionField.

Definition fallback_key (field : required_field) : string :=
  match field with
  | TitleField => "BLOG_TITLE"
  | LinkField => "SITE_URL"
  | DescriptionField => "BLOG_DESCRIPTION"
  end.

(** [field] has neither an override nor a fallback for [lang] in the site
    configuration, and the fields read before it resolve. *)
Definition unresolved (host : Host) (site_config : gmap string value)
    (translations : value) (lang : string) (field : required_field) : Prop :=
  let title := TranslatableSetting host "PODCAST_CHANNEL_TITLE"
                 (override site_config "PODCAST_CHANNEL_TITLE")
                 translations lang in
  let link := override site_config "PODCAST_CHANNEL_LINK" in
  let description := TranslatableSetting host "PODCAST_CHANNEL_DESCRIPTION"
                       (override site_config "PODCAST_CHANNEL_DESCRIPTION")
                       translations lang in
  let title_resolves :=
    truthy title = true \/
    exists f, site_config !! "BLOG_TITLE" = Some (VTrans f) in
  let link_resolves :=
    truthy link = true \/ is_Some (site_config !! "SITE_URL") in
  match field with
  | TitleField =>
      truthy title = false /\ site_config !! "BLOG_TITLE" = None
  | LinkField =>
      title_resolves /\
      truthy link = false /\ site_config !! "SITE_URL" = None
  | DescriptionField =>
      title_resolves /\ link_resolves /\
      truthy description = false /\
      site_config !! "BLOG_DESCRIPTION" = None
  end.

(** An episode as the specification's failure policy sees it: one that has
    both a title and a permalink. *)
Definition spec_well_formed (lang : string) (p : Post) : bool :=
  truthy (post_title p lang) && truthy (post_permalink p lang).

(** The number of HEAD requests for [url] in a log. *)
Definition head_requests (url : string) (log : list event) : nat :=
  length (List.filter
            (fun ev => match ev with
                       | EvHead u => String.eqb u url
                       | EvProvider _ => false
                       end) log).

(** ** Sample inputs *)

(** A translatable setting in the manner of Nikola's: a dict gives one value
    per language, anything else is the value for every language. *)
Definition sample_translatable (name : string) (inp translations : value)
    (lang : string) : value :=
  match inp with
  | VDict entries => dict_get entries lang VNone
  | _ => inp
  end.

(** A host whose server answers every HEAD request without a
    content-length header. *)
Definition sample_host : Host :=
  {| TranslatableSetting := sample_translatable;
     urljoin := fun base url _ => base +:+ url;
     http_head := fun _ => Ok [("content-type", VStr "audio/mpeg")];
     provider_request := fun _ => Ok VNone;
     guess_type := fun _ => VStr "audio/mpeg";
     astimezone := fun d _ =>
       Ok {| wall_clock := wall_clock d; tzinfo := Some 60 |} |}.

Definition everywhere (v : value) : value := VTrans (fun _ => v).

Definition sample_site_config : gmap string value :=
  list_to_map
    [ ("TRANSLATIONS", VDict [("en", VStr ""); ("es", VStr "./es")]);
      ("BLOG_TITLE", everywhere (VStr "Radio Notes"));
      ("SITE_URL", VStr "https://example.org/");
      ("BLOG_DESCRIPTION", everywhere (VStr "Notes on radio"));
      ("BLOG_AUTHOR", everywhere (VStr "Site Author"));
      ("BLOG_EMAIL", VStr "site@example.org");
      ("LOGO_URL", VStr "");
      ("FEED_LENGTH", VInt 10);
      ("FEED_TEASERS", VBool false);
      ("FEED_PLAIN", VBool false);
      ("FEED_READ_MORE_LINK", VBool false);
      ("FEED_LINKS_APPEND_QUERY", VBool false) ].

(** A site configuration that names its languages and nothing else. *)
Definition bare_site_config : gmap string value :=
  list_to_map [ ("TRANSLATIONS", VDict [("en", VStr "")]) ].

Definition config_of (site_config : gmap string value) : gmap string value :=
  match set_site sample_host site_config with
  | Ok config => config
  | Raise _ => ∅
  end.

Definition sample_config : gmap string value := config_of sample_site_config.

(** The sample site with a channel author that supplies a name only. *)
Definition name_only_config : gmap string value :=
  config_of (<["PODCAST_CHANNEL_AUTHOR" :=
                 VDict [("name", VStr "Jane Roe")]]> sample_site_config).

(** A podcast post with the given title, permalink, enclosure reference and
    zone of its date. *)
Definition episode (title permalink enclosure : value) (zone : option Z)
    : Post :=
  {| post_meta := fun _ key =>
       if String.eqb key "category" then VStr "podcast"
       else if String.eqb key "enclosure" then enclosure
       else VStr "";
     post_meta_get := fun _ _ => VNone;
     post_title := fun _ => title;
     post_description := fun _ => VStr "";
     post_text := fun _ _ _ _ _ => VStr "<p>show notes</p>";
     post_permalink := fun _ => permalink;
     post_author := fun _ => VStr "Site Author";
     post_date := {| wall_clock := 1500000000; tzinfo := zone |};
     post_deps := fun _ => [];
     post_deps_uptodate := fun _ => [] |}.

(** A post filed under "Podcast", with a capital letter. *)
Definition article : Post :=
  {| post_meta := fun _ key =>
       if String.eqb key "category" then VStr "Podcast" else VStr "";
     post_meta_get := fun _ _ => VNone;
     post_title := fun _ => VStr "On capital letters";
     post_description := fun _ => VStr "";
     post_text := fun _ _ _ _ _ => VStr "<p>text</p>";
     post_permalink := fun _ => VStr "https://example.org/capitals/";
     post_author := fun _ => VStr "Site Author";
     post_date := {| wall_clock := 1400000000; tzinfo := Some 0 |};
     post_deps := fun _ => [];
     post_deps_uptodate := fun _ => [] |}.

Definition episode1 : Post :=
  episode (VStr "One") (VStr "https://example.org/one/")
          (VStr "https://archive.org/download/show/one.mp3") (Some 0).

Definition episode2 : Post :=
  episode (VStr "Two") (VStr "https://example.org/two/")
          (VStr "https://archive.org/download/show/one.mp3") (Some 0).

Definition episode_without_permalink : Post :=
  episode (VStr "Lost") VNone VNone (Some 0).

Definition episode_without_zone : Post :=
  episode (VStr "Naive") (VStr "https://example.org/naive/") VNone None.

Definition episode_unknown_type : Post :=
  episode (VStr "Odd") (VStr "https://example.org/odd/")
          (VStr "https://archive.org/download/show/odd.xyz") (Some 0).

(** The feed [render_podcast_rss] hands over, or the empty feed of the
    sample channel when it raises. *)
Definition rendered (cfg : gmap string value) (posts : list Post)
    : FeedGenerator :=
  match fst (render_podcast_rss sample_host cfg "en" posts
               "output/podcast.xml" "https://example.org/podcast.xml" []) with
  | Ok doc => doc
  | Raise _ =>
      {| fg_extensions := []; fg_id := ""; fg_title := VNone;
         fg_links := []; fg_description := VNone; fg_author := VNone;
         fg_language := ""; fg_generator := ("", ""); fg_category := None;
         fg_icon := None; fg_logo := None; fg_entries := [] |}
  end.

(** A size lookup that returns, which the module's own never does: it makes
    its HEAD request and returns a length.  It stands for the function bound
    to [get_enclosure_size] where a statement is about what [_enclosure]
    does after the lookup. *)
Definition working_size (url default : value) : M value :=
  match url with
  | VStr u => fun log => (Ok (VInt 4096), log ++ [EvHead u])
  | _ => lift (Raise (TypeError "url"))
  end.

(** ** The task generator *)

(** [s.lstrip(c)] for a one-character [c]. *)
Fixpoint lstrip (c : ascii) (s : string) : string :=
  match s with
  | String a rest => if Ascii.eqb a c then lstrip c rest else s
  | EmptyString => s
  end.

(** The task dictionary of lines 113-125; its one action is the call of
    [render_podcast_rss] with the four arguments kept here. *)
Record Task : Type := {
  task_basename : string;
  task_name : string;
  task_file_dep : list string;
  task_targets : list string;
  task_action : string * list Post * string * value;
  task_task_dep : list string;
  task_clean : bool;
  task_uptodate : list string
}.

(** The site object and the library calls of [gen_tasks]. *)
Record Site : Type := {
  (** [site.posts] after [site.scan_posts()] *)
  site_posts : list Post;
  (** [site.link("podcast_rss", None, lang)] *)
  site_link : string -> result string;
  (** [site.path("podcast_rss", None, lang)] *)
  site_path : string -> result string;
  (** [urljoin(base, url)] for a [base] that is not a string *)
  urljoin_base : value -> string -> result value;
  (** [os.path.join(folder, path)] *)
  os_path_join : value -> string -> result string;
  (** [os.path.normpath(path)] *)
  normpath : string -> string;
  (** [a == b] for a [b] that is not a string *)
  equal : value -> value -> bool;
  (** [utils.apply_filters(task, filters)] *)
  apply_filters : Task -> value -> result Task
}.

(** What [gen_tasks] yields: the group task of the parent class, then feed
    tasks. *)
Inductive yielded : Type :=
| GroupTask
| FeedTask (task : Task).

Section Generator.

Variable host : Host.
Variable site : Site.
Variable cfg : gmap string value.

(** Line 100: [urljoin(cfg['BASE_URL'], link)]. *)
Definition join_url (base : value) (url : string) : result value :=
  match base with
  | VStr b => Ok (VStr (urljoin host b url true))
  | _ => urljoin_base site base url
  end.

(** Line 106: [p.meta[lang]['category'] == category]. *)
Definition category_test (lang : string) (category : value) (p : Post)
    : bool :=
  match category with
  | VStr c => in_category lang c p
  | _ => equal site (post_meta p lang "category") category
  end.

(** Lines 105-106: the comprehension; its condition reads the configured
    category for every post it tests. *)
Fixpoint matching_posts (lang : string) (posts : list Post)
    : result (list Post) :=
  match posts with
  | [] => Ok []
  | p :: rest =>
      let* category := getitem cfg "PODCAST_POST_CATEGORY" in
      let* tail := matching_posts lang rest in
      Ok (if category_test lang category p then p :: tail else tail)
  end.

(** Lines 100-125: the task of one language, before the filters. *)
Definition build_task (lang : string) : result Task :=
  let* base := getitem cfg "BASE_URL" in
  let* link := site_link site lang in
  let* feed_url := join_url base (lstrip "/"%char link) in
  let* folder := getitem cfg "OUTPUT_FOLDER" in
  let* path := site_path site lang in
  let* output_name := os_path_join site folder path in
  let* matches := matching_posts lang (site_posts site) in
  let* feed_length := getitem cfg "FEED_LENGTH" in
  let* posts := slice_to matches feed_length in
  let deps := flat_map (fun post => post_deps post lang) posts in
  let deps_uptodate :=
    flat_map (fun post => post_deps_uptodate post lang) posts in
  Ok {| task_basename := "generate_podcast_rss";
        task_name := normpath site output_name;
        task_file_dep := deps;
        task_targets := [output_name];
        task_action := (lang, posts, output_name, feed_url);
        task_task_dep := ["render_posts"];
        task_clean := true;
        task_uptodate := deps_uptodate |}.

(** Lines 100-126: one turn of the loop over the languages; a language is a
    string. *)
Definition feed_task (item : value) : result Task :=
  match item with
  | VStr lang =>
      let* task := build_task lang in
      let* filters := getitem cfg "FILTERS" in
      apply_filters site task filters
  | _ => Raise (TypeError "language")
  end.

(** Lines 99-126: the loop of the generator.  What was yielded before an
    exception stays yielded. *)
Fixpoint feed_tasks (items : list value) : list yielded * result unit :=
  match items with
  | [] => ([], Ok tt)
  | item :: rest =>
      match feed_task item with
      | Ok task =>
          let '(more, outcome) := feed_tasks rest in
          (FeedTask task :: more, outcome)
      | Raise e => ([], Raise e)
      end
  end.

(** Lines 92-126: the tasks yielded, and how the generator ends. *)
Definition gen_tasks : list yielded * result unit :=
  match (let* translations := getitem cfg "TRANSLATIONS" in
         iterate translations) with
  | Ok items =>
      let '(tasks, outcome) := feed_tasks items in
      (GroupTask :: tasks, outcome)
  | Raise e => ([GroupTask], Raise e)
  end.

End Generator.

(** The arguments of a task's action. *)
Definition task_lang (task : Task) : string :=
  let '(lang, _, _, _) := task_action task in lang.

Definition task_posts (task : Task) : list Post :=
  let '(_, posts, _, _) := task_action task in posts.

Definition task_output_name (task : Task) : string :=
  let '(_, _, output_name, _) := task_action task in output_name.

Definition task_feed_url (task : Task) : value :=
  let '(_, _, _, feed_url) := task_action task in feed_url.

(** ** Further sample inputs *)

(** A post whose author and e-mail are both unknown. *)
Definition anonymous_episode : Post :=
  {| post_meta := fun _ key =>
       if String.eqb key "category" then VStr "podcast" else VStr "";
     post_meta_get := fun _ _ => VNone;
     post_title := fun _ => VStr "Anonymous";
     post_description := fun _ => VStr "";
     post_text := fun _ _ _ _ _ => VStr "<p>text</p>";
     post_permalink := fun _ => VStr "https://example.org/anonymous/";
     post_author := fun _ => VStr "";
     post_date := {| wall_clock := 1450000000; tzinfo := Some 0 |};
     post_deps := fun _ => ["posts/anonymous.rst"];
     post_deps_uptodate := fun _ => ["uptodate:anonymous"] |}.

(** A post of another category, with dependencies of its own. *)
Definition essay : Post :=
  {| post_meta := fun _ key =>
       if String.eqb key "category" then VStr "essays" else VStr "";
     post_meta_get := fun _ _ => VNone;
     post_title := fun _ => VStr "An essay";
     post_description := fun _ => VStr "";
     post_text := fun _ _ _ _ _ => VStr "<p>text</p>";
     post_permalink := fun _ => VStr "https://example.org/essay/";
     post_author := fun _ => VStr "Site Author";
     post_date := {| wall_clock := 1460000000; tzinfo := Some 0 |};
     post_deps := fun _ => ["posts/essay.rst"];
     post_deps_uptodate := fun _ => ["uptodate:essay"] |}.

Definition sample_site : Site :=
  {| site_posts := [anonymous_episode; essay; episode1; episode2];
     site_link := fun lang =>
       Ok (if String.eqb lang "en" then "/podcast.xml"
           else "/" +:+ lang +:+ "/podcast.xml");
     site_path := fun lang =>
       Ok (if String.eqb lang "en" then "podcast.xml"
           else lang +:+ "/podcast.xml");
     urljoin_base := fun _ url => Ok (VStr url);
     os_path_join := fun folder path =>
       match folder with
       | VStr f => Ok (f +:+ "/" +:+ path)
       | _ => Raise (TypeError "os.path.join")
       end;
     normpath := fun path => path;
     equal := fun _ _ => false;
     apply_filters := fun task _ => Ok task |}.

(** The sample site configuration with what the task generator reads. *)
Definition task_site_config : gmap string value :=
  <["BASE_URL" := VStr "https://example.org/"]>
  (<["OUTPUT_FOLDER" := VStr "output"]>
  (<["FILTERS" := VDict []]>
  (<["FEED_LENGTH" := VInt 2]> sample_site_config))).

Definition task_config : gmap string value := config_of task_site_config.

(** The task of the English feed of the sample site, or an empty task when
    it cannot be built. *)
Definition sample_task : Task :=
  match build_task sample_host sample_site task_config "en" with
  | Ok task => task
  | Raise _ =>
      {| task_basename := ""; task_name := ""; task_file_dep := [];
         task_targets := []; task_action := ("", [], "", VNone);
         task_task_dep := []; task_clean := false; task_uptodate := [] |}
  end.

(** The sample site with a logo of the site. *)
Definition logo_config : gmap string value :=
  config_of (<["LOGO_URL" := VStr "https://example.org/logo.png"]>
               sample_site_config).

(** The sample site with a category that holds a number. *)
Definition number_category_config : gmap string value :=
  config_of (<["PODCAST_CHANNEL_CATEGORY" := VList [VStr "Arts"; VInt 7]]>
               sample_site_config).

(** The sample site with a podcast title of its own. *)
Definition titled_config : gmap string value :=
  config_of (<["PODCAST_CHANNEL_TITLE" := VStr "Radio Hour"]>
               sample_site_config).

(** * Properties *)

(** ** Results and loops *)

Lemma bind_Ok {A B : Type} (c : result A) (k : A -> result B) (b : B) :
  bind c k = Ok b -> exists a, c = Ok a /\ k a = Ok b.
Proof.
  destruct c as [a | e]; simpl; intros H; [eauto | discriminate].
Qed.

Lemma py_or_Ok (a b : result value) (v : value) :
  py_or a b = Ok v ->
  (a = Ok v /\ truthy v = true) \/
  (exists x, a = Ok x /\ truthy x = false /\ b = Ok v).
Proof.
  unfold py_or. intros H. apply bind_Ok in H as (x & Ha & Hx).
  destruct (truthy x) eqn:Ht.
  - left. injection Hx as ->. auto.
  - right. eauto.
Qed.

Lemma getitem_Ok (cfg : gmap string value) (key : string) (v : value) :
  getitem cfg key = Ok v <-> cfg !! key = Some v.
Proof.
  unfold getitem. destruct (cfg !! key); split; intros H;
    try discriminate; congruence.
Qed.

Lemma setting_Ok (cfg : gmap string value) (key lang : string) (v : value) :
  setting cfg key lang = Ok v <->
  exists f, cfg !! key = Some (VTrans f) /\ f lang = v.
Proof.
  unfold setting. split.
  - intros H. apply bind_Ok in H as (x & Hx & Hc).
    apply getitem_Ok in Hx. destruct x; simpl in Hc; try discriminate.
    injection Hc as <-. eauto.
  - intros (f & Hf & <-). apply getitem_Ok in Hf. rewrite Hf. reflexivity.
Qed.

Ltac bind_inv H :=
  let x := fresh "x" in
  let Hx := fresh "Hx" in
  apply bind_Ok in H as (x & Hx & H).

(** ** Selection of the episodes *)

Lemma filter_sublist {A : Type} (f : A -> bool) (l : list A) :
  sublist (List.filter f l) l.
Proof.
  induction l as [| x l IH]; simpl.
  - constructor.
  - destruct (f x); [apply sublist_skip | apply sublist_cons]; exact IH.
Qed.

Lemma filter_all {A : Type} (f : A -> bool) (l : list A) :
  Forall (fun x => f x = true) l -> List.filter f l = l.
Proof.
  induction 1 as [| x l Hx _ IH]; simpl; [reflexivity |].
  rewrite Hx, IH. reflexivity.
Qed.

Lemma filter_none {A : Type} (f : A -> bool) (l : list A) :
  (forall x, In x l -> f x = false) -> List.filter f l = [].
Proof.
  induction l as [| x l IH]; simpl; intros H; [reflexivity |].
  rewrite (H x) by auto. apply IH. intros y Hy. apply H. auto.
Qed.

Lemma in_category_meta (lang category : string) (p : Post) :
  in_category lang category p = true <->
  post_meta p lang "category" = VStr category.
Proof.
  unfold in_category. split.
  - destruct (post_meta p lang "category"); try discriminate.
    intros H. apply String.eqb_eq in H. congruence.
  - intros ->. apply String.eqb_refl.
Qed.

(** C5.  For a maximum count [n >= 0], the selection returns (it does not
    raise) the first [n] of the posts whose category metadata for the
    language is exactly the configured string, in the order of the input:
    every selected post is an input post with that category, the selection
    is a subsequence of the input of length [min n matches], no matching
    post is left out while fewer than [n] match, seven matching posts with
    [n = 5] give the first five, and no match gives the empty list. *)
Theorem select_posts_first_matches
    (posts : list Post) (lang category : string) (n : Z) :
  0 <= n ->
  let matches := List.filter (in_category lang category) posts in
  exists chosen,
    select_posts posts lang category (VInt n) = Ok chosen /\
    chosen = take (Z.to_nat n) matches /\
    (forall p, In p chosen ->
       In p posts /\ post_meta p lang "category" = VStr category) /\
    sublist chosen posts /\
    length chosen = Nat.min (Z.to_nat n) (length matches) /\
    ((length matches <= Z.to_nat n)%nat ->
       forall p, In p posts ->
         post_meta p lang "category" = VStr category -> In p chosen) /\
    (Forall (fun p => post_meta p lang "category" = VStr category) posts ->
       length posts = 7%nat -> n = 5 -> chosen = take 5 posts) /\
    ((forall p, In p posts -> post_meta p lang "category" <> VStr category) ->
       chosen = []).
Proof.
  intros Hn matches. exists (take (Z.to_nat n) matches).
  assert (Hsel : select_posts posts lang category (VInt n)
                 = Ok (take (Z.to_nat n) matches)).
  { unfold select_posts, slice_to. fold matches.
    destruct (0 <=? n) eqn:E; [reflexivity | apply Z.leb_gt in E; lia]. }
  split; [exact Hsel |]. split; [reflexivity |].
  split; [| split; [| split; [| split; [| split]]]].
  - intros p Hp.
    assert (Hm : In p matches).
    { apply list_elem_of_In. eapply elem_of_sublist; [| apply sublist_take].
      apply list_elem_of_In. exact Hp. }
    apply filter_In in Hm as [Hin Hcat].
    split; [exact Hin | apply in_category_meta; exact Hcat].
  - transitivity matches; [apply sublist_take | apply filter_sublist].
  - apply length_take.
  - intros Hlen p Hin Hcat. rewrite take_ge by lia.
    apply filter_In. split; [exact Hin | apply in_category_meta; exact Hcat].
  - intros Hall _ ->. subst matches. rewrite filter_all; [reflexivity |].
    eapply Forall_impl; [exact Hall |]. intros p Hp.
    apply in_category_meta. exact Hp.
  - intros Hnone. subst matches. rewrite filter_none; [apply take_nil |].
    intros p Hp. destruct (in_category lang category p) eqn:E;
      [| reflexivity].
    apply in_category_meta in E. destruct (Hnone p Hp E).
Qed.

(** ** The feed path *)

(** C10.  For a language present in TRANSLATIONS, [rss_path] returns the
    list of the translation prefix and PODCAST_RSS_PATH with the falsy ones
    removed; no returned segment is the empty string, and when the prefix is
    the empty string the result holds nothing but the feed file name. *)
Theorem rss_path_drops_falsy
    (config : gmap string value) (name lang : string)
    (translations prefix path : value) :
  config !! "TRANSLATIONS" = Some translations ->
  subscript translations lang = Ok prefix ->
  config !! "PODCAST_RSS_PATH" = Some path ->
  rss_path config name lang = Ok (List.filter truthy [prefix; path]) /\
  (forall seg, In seg (List.filter truthy [prefix; path]) ->
     truthy seg = true /\ seg <> VStr "" /\ (seg = prefix \/ seg = path)) /\
  (prefix = VStr "" ->
     rss_path config name lang = Ok (if truthy path then [path] else [])).
Proof.
  intros Ht Hp Hf.
  assert (Hr : rss_path config name lang
               = Ok (List.filter truthy [prefix; path])).
  { unfold rss_path, getitem. rewrite Ht. simpl. rewrite Hp. simpl.
    rewrite Hf. reflexivity. }
  split; [exact Hr |]. split.
  - intros seg Hseg. apply filter_In in Hseg as [Hin Htr].
    split; [exact Htr |]. split.
    + intros ->. discriminate.
    + simpl in Hin. destruct Hin as [<- | [<- | []]]; auto.
  - intros ->. rewrite Hr. reflexivity.
Qed.

(** ** The entry loop *)

Section Render.

Variable host : Host.
Variable cfg : gmap string value.
Variable lang : string.

Lemma published_aware (p : Post) (zone : Z) :
  tzinfo (post_date p) = Some zone -> published host p = Ok (post_date p).
Proof. unfold published. intros ->. reflexivity. Qed.

Lemma published_naive (p : Post) :
  tzinfo (post_date p) = None -> published host p = Raise (NameError "site").
Proof. unfold published. intros ->. reflexivity. Qed.

Lemma published_Ok (p : Post) (d : datetime) :
  published host p = Ok d ->
  d = post_date p /\ exists zone, tzinfo (post_date p) = Some zone.
Proof.
  destruct (tzinfo (post_date p)) as [zone |] eqn:E.
  - rewrite (published_aware p zone E). intros [= <-]. eauto.
  - rewrite (published_naive p E). discriminate.
Qed.

Lemma render_entry_Ok (p : Post) (fe : FeedEntry) :
  render_entry host cfg lang p = Ok fe ->
  fe_title fe = post_title p lang /\
  href (fe_link fe) = post_permalink p lang /\
  fe_published fe = post_date p /\
  (exists zone, tzinfo (post_date p) = Some zone) /\
  fe_enclosure fe = None.
Proof.
  unfold render_entry. intros H.
  do 4 bind_inv H. unfold get_author_info in H. bind_inv H.
  apply published_Ok in Hx3 as [-> Hz].
  injection H as <-. simpl. auto.
Qed.

Lemma render_entry_aware (p : Post) (zone : Z) :
  feed_flags cfg -> tzinfo (post_date p) = Some zone ->
  exists fe, render_entry host cfg lang p = Ok fe.
Proof.
  intros ([a Ha] & [b Hb] & [c Hc] & [d Hd]) Hz.
  unfold render_entry, getitem. rewrite Ha, Hb, Hc, Hd. simpl.
  rewrite (published_aware p zone Hz). simpl. eauto.
Qed.

Lemma render_entry_naive (p : Post) :
  feed_flags cfg -> tzinfo (post_date p) = None ->
  render_entry host cfg lang p = Raise (NameError "site").
Proof.
  intros ([a Ha] & [b Hb] & [c Hc] & [d Hd]) Hz.
  unfold render_entry, getitem. rewrite Ha, Hb, Hc, Hd. simpl.
  rewrite (published_naive p Hz). reflexivity.
Qed.

Lemma add_entries_entries (es : list FeedEntry) (fg : FeedGenerator) :
  fg_entries (fold_left add_entry es fg) = fg_entries fg ++ es.
Proof.
  revert fg. induction es as [| fe es IH]; intros fg; simpl.
  - symmetry. apply app_nil_r.
  - rewrite IH. simpl. rewrite <- app_assoc. reflexivity.
Qed.

Lemma add_entries_author (es : list FeedEntry) (fg : FeedGenerator) :
  fg_author (fold_left add_entry es fg) = fg_author fg.
Proof.
  revert fg. induction es as [| fe es IH]; intros fg; simpl;
    [reflexivity | rewrite IH; reflexivity].
Qed.

Lemma loop_Ok (posts : list Post) (fg fg' : FeedGenerator) :
  for_each (loop_body host cfg lang) posts fg = Ok fg' ->
  exists es,
    Forall2 (fun p fe => render_entry host cfg lang p = Ok fe) posts es /\
    fg' = fold_left add_entry es fg.
Proof.
  revert fg. induction posts as [| p posts IH]; simpl; intros fg H.
  - injection H as <-. exists []. split; [constructor | reflexivity].
  - bind_inv H. unfold loop_body in Hx. bind_inv Hx. injection Hx as <-.
    destruct (IH _ H) as (es & Hes & ->).
    exists (x0 :: es). split; [constructor; assumption | reflexivity].
Qed.

Lemma loop_aware (posts : list Post) (fg : FeedGenerator) :
  feed_flags cfg ->
  Forall (fun p => exists zone, tzinfo (post_date p) = Some zone) posts ->
  exists fg', for_each (loop_body host cfg lang) posts fg = Ok fg'.
Proof.
  intros Hflags Hall. revert fg.
  induction Hall as [| p posts [zone Hz] _ IH]; intros fg; simpl.
  - eauto.
  - unfold loop_body at 1.
    destruct (render_entry_aware p zone Hflags Hz) as [fe ->]. simpl.
    apply IH.
Qed.

Lemma loop_naive (posts : list Post) (fg : FeedGenerator) :
  feed_flags cfg ->
  Exists (fun p => tzinfo (post_date p) = None) posts ->
  for_each (loop_body host cfg lang) posts fg = Raise (NameError "site").
Proof.
  intros Hflags Hex. revert fg.
  induction Hex as [p posts Hz | p posts _ IH]; intros fg; simpl;
    unfold loop_body at 1.
  - rewrite (render_entry_naive p Hflags Hz). reflexivity.
  - destruct (tzinfo (post_date p)) as [zone |] eqn:Hz.
    + destruct (render_entry_aware p zone Hflags Hz) as [fe ->]. simpl.
      apply IH.
    + rewrite (render_entry_naive p Hflags Hz). reflexivity.
Qed.

Lemma render_channel_Ok (feed_url : string) (fg : FeedGenerator) :
  render_channel cfg lang feed_url = Ok fg ->
  channel_title cfg lang = Ok (fg_title fg) /\
  channel_author cfg lang = Ok (fg_author fg) /\
  fg_entries fg = [].
Proof.
  unfold render_channel. intros H. do 8 bind_inv H.
  injection H as <-. simpl. auto.
Qed.

(** [render_podcast_rss] makes no call that leaves the process. *)
Lemma render_log (posts : list Post) (output_name feed_url : string)
    (log : list event) :
  snd (render_podcast_rss host cfg lang posts output_name feed_url log) = log.
Proof.
  unfold render_podcast_rss, bindM, lift, ret.
  destruct (render_channel cfg lang feed_url) as [fg |]; [| reflexivity].
  destruct (for_each _ posts fg); reflexivity.
Qed.

Lemma render_Ok (posts : list Post) (output_name feed_url : string)
    (log : list event) (doc : FeedGenerator) :
  fst (render_podcast_rss host cfg lang posts output_name feed_url log)
    = Ok doc ->
  exists fg es,
    render_channel cfg lang feed_url = Ok fg /\
    Forall2 (fun p fe => render_entry host cfg lang p = Ok fe) posts es /\
    doc = fold_left add_entry es fg /\
    fg_entries doc = es.
Proof.
  unfold render_podcast_rss, bindM, lift, ret.
  destruct (render_channel cfg lang feed_url) as [fg |] eqn:Hc;
    [| discriminate].
  destruct (for_each (loop_body host cfg lang) posts fg) as [fg' |] eqn:Hl;
    [| discriminate].
  simpl. intros [= <-]. apply loop_Ok in Hl as (es & Hes & ->).
  exists fg, es. repeat split; try assumption.
  rewrite add_entries_entries.
  apply render_channel_Ok in Hc as (_ & _ & ->). reflexivity.
Qed.

Lemma render_run (posts : list Post) (output_name feed_url : string)
    (log : list event) (fg : FeedGenerator) :
  render_channel cfg lang feed_url = Ok fg ->
  render_podcast_rss host cfg lang posts output_name feed_url log
    = (for_each (loop_body host cfg lang) posts fg, log).
Proof.
  intros Hc. unfold render_podcast_rss, bindM, lift, ret. rewrite Hc.
  destruct (for_each (loop_body host cfg lang) posts fg); reflexivity.
Qed.

End Render.

(** ** Enclosures *)

(** What the last step of [get_enclosure_size] does with a response that
    has no content-length header: it gives the default. *)
Lemma dict_get_missing (headers : list (string * value)) (key : string)
    (default : value) :
  assoc key headers = None -> dict_get headers key default = default.
Proof. unfold dict_get. intros ->. reflexivity. Qed.

Lemma size_lookup_raises (host : Host) (url default : value)
    (log : list event) :
  get_enclosure_size host url default log = (Raise (NameError "slug"), log).
Proof.
  unfold get_enclosure_size, bindM, lift. reflexivity.
Qed.

(** C1.  [get_enclosure_size] never returns the default length: for every
    URL, every default and every answer of the network, also a response
    without content-length or a failed request, it raises NameError for the
    name [slug] before any request is made. *)
Theorem get_enclosure_size_raises_NameError
    (host : Host) (url default : value) (log : list event) :
  get_enclosure_size host url default log = (Raise (NameError "slug"), log).
Proof. reflexivity. Qed.

Lemma _enclosure_with_run (host : Host) (size : value -> value -> M value)
    (p : Post) (lang : string) (log : list event) :
  truthy (post_meta p lang "enclosure") = true ->
  _enclosure_with host size p lang log =
    match size (post_meta p lang "enclosure") (VInt 0) log with
    | (Ok _, log') => (Raise (NameError "mimetypes"), log')
    | (Raise e, log') => (Raise e, log')
    end.
Proof.
  intros Ht. unfold _enclosure_with. rewrite Ht. unfold bindM.
  destruct (size _ _ log) as [[len | e] log']; reflexivity.
Qed.

Lemma _enclosure_without_reference (host : Host)
    (size : value -> value -> M value) (p : Post) (lang : string)
    (log : list event) :
  truthy (post_meta p lang "enclosure") = false ->
  _enclosure_with host size p lang log = (Ok VNone, log).
Proof. intros Ht. unfold _enclosure_with. rewrite Ht. reflexivity. Qed.

(** C2.  A feed that [render_podcast_rss] hands over has one entry per post,
    in order, and none of them carries an enclosure, whether or not the post
    has an enclosure reference. *)
Theorem render_adds_no_enclosure
    (host : Host) (cfg : gmap string value) (lang : string)
    (posts : list Post) (output_name feed_url : string) (log : list event)
    (doc : FeedGenerator) :
  fst (render_podcast_rss host cfg lang posts output_name feed_url log)
    = Ok doc ->
  Forall2 (fun p fe => fe_title fe = post_title p lang /\
                       fe_enclosure fe = None)
          posts (fg_entries doc).
Proof.
  intros H. apply render_Ok in H as (fg & es & _ & Hes & _ & ->).
  eapply Forall2_impl; [exact Hes |].
  intros p fe Hp. apply render_entry_Ok in Hp. tauto.
Qed.

Lemma render_adds_no_enclosure_witness :
  truthy (post_meta episode1 "en" "enclosure") = true /\
  Forall2 (fun p fe => fe_title fe = post_title p "en" /\
                       fe_enclosure fe = None)
          [episode1] (fg_entries (rendered sample_config [episode1])).
Proof.
  split; [reflexivity |].
  apply (render_adds_no_enclosure sample_host sample_config "en" [episode1]
           "output/podcast.xml" "https://example.org/podcast.xml" []).
  vm_compute. reflexivity.
Defined.



(** The same at the sample site: two episodes share an enclosure URL, the
    feed is handed over with two entries, and no enclosure metadata is
    attached to either, so the second episode reuses none; [_enclosure]
    called for the second episode after the first returns no cached value
    either. *)
Lemma shared_enclosure_is_not_reused :
  let doc := rendered sample_config [episode1; episode2] in
  let after_first := snd (_enclosure sample_host episode1 "en" []) in
  post_meta episode1 "en" "enclosure" = post_meta episode2 "en" "enclosure" /\
  fst (render_podcast_rss sample_host sample_config "en" [episode1; episode2]
         "output/podcast.xml" "https://example.org/podcast.xml" []) = Ok doc /\
  length (fg_entries doc) = 2%nat /\
  ~ (exists metadata,
       Forall (fun fe => fe_enclosure fe = Some metadata) (fg_entries doc)) /\
  ~ (exists metadata,
       fst (_enclosure sample_host episode2 "en" after_first) = Ok metadata).
Proof.
  intros doc after_first.
  split; [reflexivity |]. split; [vm_compute; reflexivity |].
  split; [reflexivity |]. split.
  - intros [metadata H]. vm_compute in H. inversion H as [| ? ? Hfe _].
    discriminate Hfe.
  - intros [metadata H]. vm_compute in H. discriminate H.
Qed.

(** C4.  [_enclosure] never yields a MIME type for a post with an enclosure
    reference.  As the module stands it raises NameError for [slug] inside
    the size lookup; and with any size lookup that returns, it raises
    NameError for [mimetypes], a module the file does not import, whatever
    the extension of the URL. *)
Theorem _enclosure_raises_before_mime
    (host : Host) (size : value -> value -> M value) (p : Post)
    (lang : string) (log log' : list event) (len : value) :
  truthy (post_meta p lang "enclosure") = true ->
  size (post_meta p lang "enclosure") (VInt 0) log = (Ok len, log') ->
  _enclosure host p lang log = (Raise (NameError "slug"), log) /\
  _enclosure_with host size p lang log = (Raise (NameError "mimetypes"), log').
Proof.
  intros Ht Hsize. split.
  - unfold _enclosure. rewrite _enclosure_with_run by exact Ht.
    rewrite size_lookup_raises. reflexivity.
  - rewrite _enclosure_with_run by exact Ht. rewrite Hsize. reflexivity.
Qed.

Lemma _enclosure_raises_before_mime_witness :
  _enclosure sample_host episode_unknown_type "en" []
    = (Raise (NameError "slug"), []) /\
  _enclosure_with sample_host working_size episode_unknown_type "en" []
    = (Raise (NameError "mimetypes"),
       [EvHead "https://archive.org/download/show/odd.xyz"]).
Proof.
  apply (_enclosure_raises_before_mime sample_host working_size
           episode_unknown_type "en" [] _ (VInt 4096));
    reflexivity.
Defined.

(** ** Entries *)

Lemma entries_follow_posts (host : Host) (cfg : gmap string value)
    (lang : string) (posts : list Post) (es : list FeedEntry) :
  Forall2 (fun p fe => render_entry host cfg lang p = Ok fe) posts es ->
  Forall2 (fun p fe => fe_title fe = post_title p lang /\
                       href (fe_link fe) = post_permalink p lang /\
                       fe_published fe = post_date p)
          posts es.
Proof.
  intros H. eapply Forall2_impl; [exact H |].
  intros p fe Hp. apply render_entry_Ok in Hp. tauto.
Qed.

Lemma entries_as_posts (host : Host) (cfg : gmap string value)
    (lang : string) (posts : list Post) (es : list FeedEntry) :
  Forall2 (fun p fe => render_entry host cfg lang p = Ok fe) posts es ->
  map (fun fe => (fe_title fe, href (fe_link fe))) es
    = map (fun p => (post_title p lang, post_permalink p lang)) posts.
Proof.
  induction 1 as [| p fe posts es Hp _ IH]; [reflexivity |].
  apply render_entry_Ok in Hp as (Ht & Hl & _). simpl.
  rewrite Ht, Hl, IH. reflexivity.
Qed.

(** C6, as the code has it.  No episode is skipped: a feed that
    [render_podcast_rss] hands over has exactly one entry per post of the
    list, malformed or not, and its entries carry the titles and the
    permalinks that the posts give, present or not. *)
Theorem render_keeps_every_episode
    (host : Host) (cfg : gmap string value) (lang : string)
    (posts : list Post) (output_name feed_url : string) (log : list event)
    (doc : FeedGenerator) :
  fst (render_podcast_rss host cfg lang posts output_name feed_url log)
    = Ok doc ->
  length (fg_entries doc) = length posts /\
  map (fun fe => (fe_title fe, href (fe_link fe))) (fg_entries doc)
    ≡ₚ map (fun p => (post_title p lang, post_permalink p lang)) posts.
Proof.
  intros H. apply render_Ok in H as (fg & es & _ & Hes & _ & ->).
  split; [symmetry; eapply Forall2_length; exact Hes |].
  rewrite (entries_as_posts host cfg lang posts es Hes). reflexivity.
Qed.

Lemma render_keeps_every_episode_witness :
  let posts := [episode1; episode_without_permalink; episode2] in
  length (fg_entries (rendered sample_config posts)) = length posts /\
  map (fun fe => (fe_title fe, href (fe_link fe)))
      (fg_entries (rendered sample_config posts))
    ≡ₚ map (fun p => (post_title p "en", post_permalink p "en")) posts.
Proof.
  intros posts.
  apply (render_keeps_every_episode sample_host sample_config "en" posts
           "output/podcast.xml" "https://example.org/podcast.xml" []).
  vm_compute. reflexivity.
Defined.

(** C6 fails as stated: of three episodes one has no permalink, and the feed
    handed over has three entries, not the two of the well-formed episodes;
    the middle entry is the malformed episode's, with an empty link. *)
Lemma malformed_episode_is_not_skipped :
  let posts := [episode1; episode_without_permalink; episode2] in
  let doc := rendered sample_config posts in
  fst (render_podcast_rss sample_host sample_config "en" posts
         "output/podcast.xml" "https://example.org/podcast.xml" []) = Ok doc /\
  List.filter (spec_well_formed "en") posts = [episode1; episode2] /\
  length (fg_entries doc) = 3%nat /\
  length (fg_entries doc)
    <> length (List.filter (spec_well_formed "en") posts) /\
  map (fun fe => href (fe_link fe)) (fg_entries doc)
    = [VStr "https://example.org/one/"; VNone;
       VStr "https://example.org/two/"].
Proof.
  intros posts doc. split; [vm_compute; reflexivity |].
  split; [reflexivity |]. split; [reflexivity |].
  split; [vm_compute; discriminate | reflexivity].
Qed.

(** C7.  A date that carries a zone is published unchanged; but as soon as
    one post of the list has a date without zone, no default zone is
    applied: [render_podcast_rss] raises NameError for the name [site] and
    hands over no feed. *)
Theorem render_raises_on_date_without_zone
    (host : Host) (cfg : gmap string value) (lang : string)
    (posts : list Post) (output_name feed_url : string) (log : list event)
    (fg : FeedGenerator) :
  render_channel cfg lang feed_url = Ok fg ->
  feed_flags cfg ->
  Exists (fun p => tzinfo (post_date p) = None) posts ->
  render_podcast_rss host cfg lang posts output_name feed_url log
    = (Raise (NameError "site"), log).
Proof.
  intros Hc Hflags Hex.
  rewrite (render_run host cfg lang posts _ _ log fg Hc).
  rewrite (loop_naive host cfg lang posts fg Hflags Hex). reflexivity.
Qed.

Lemma render_raises_on_date_without_zone_witness :
  tzinfo (post_date episode_without_zone) = None /\
  render_podcast_rss sample_host sample_config "en"
    [episode1; episode_without_zone]
    "output/podcast.xml" "https://example.org/podcast.xml" []
    = (Raise (NameError "site"), []).
Proof.
  split; [reflexivity |].
  apply (render_raises_on_date_without_zone sample_host sample_config "en"
           [episode1; episode_without_zone] "output/podcast.xml"
           "https://example.org/podcast.xml" [] (rendered sample_config [])).
  - vm_compute. reflexivity.
  - unfold feed_flags. repeat split; vm_compute; eauto.
  - apply Exists_cons_tl. apply Exists_cons_hd. reflexivity.
Defined.

(** ** The channel *)

Lemma channel_author_cases (cfg : gmap string value) (lang : string)
    (author : value) :
  channel_author cfg lang = Ok author ->
  exists override,
    cfg !! "PODCAST_CHANNEL_AUTHOR" = Some override /\
    ((truthy override = true /\ author = override) \/
     (truthy override = false /\
      exists f email,
        cfg !! "BLOG_AUTHOR" = Some (VTrans f) /\
        cfg !! "BLOG_EMAIL" = Some email /\
        author = VDict [("name", f lang); ("email", email)])).
Proof.
  unfold channel_author. intros H.
  apply py_or_Ok in H as [[Ha Ht] | (x & Ha & Ht & Hb)];
    apply getitem_Ok in Ha.
  - exists author. split; [exact Ha |]. left. auto.
  - exists x. split; [exact Ha |]. right. split; [exact Ht |].
    bind_inv Hb. bind_inv Hb. injection Hb as <-.
    apply setting_Ok in Hx as (f & Hf & <-). apply getitem_Ok in Hx0.
    eauto.
Qed.

(** C8.  The author of a feed that is handed over is either the configured
    PODCAST_CHANNEL_AUTHOR as a whole, when that setting is truthy, or else
    the pair of BLOG_AUTHOR for the language and BLOG_EMAIL as a whole; it
    is never put together from both. *)
Theorem channel_author_is_all_or_nothing
    (host : Host) (cfg : gmap string value) (lang : string)
    (posts : list Post) (output_name feed_url : string) (log : list event)
    (doc : FeedGenerator) :
  fst (render_podcast_rss host cfg lang posts output_name feed_url log)
    = Ok doc ->
  exists override,
    cfg !! "PODCAST_CHANNEL_AUTHOR" = Some override /\
    ((truthy override = true /\ fg_author doc = override) \/
     (truthy override = false /\
      exists f email,
        cfg !! "BLOG_AUTHOR" = Some (VTrans f) /\
        cfg !! "BLOG_EMAIL" = Some email /\
        fg_author doc = VDict [("name", f lang); ("email", email)])).
Proof.
  intros H. apply render_Ok in H as (fg & es & Hc & _ & -> & _).
  rewrite add_entries_author.
  apply render_channel_Ok in Hc as (_ & Ha & _).
  apply channel_author_cases. exact Ha.
Qed.

Lemma channel_author_is_all_or_nothing_witness :
  fg_author (rendered name_only_config [episode1])
    = VDict [("name", VStr "Jane Roe")] /\
  fg_author (rendered sample_config [episode1])
    = VDict [("name", VStr "Site Author"); ("email", VStr "site@example.org")].
Proof.
  split.
  - destruct (channel_author_is_all_or_nothing sample_host name_only_config
                "en" [episode1] "output/podcast.xml"
                "https://example.org/podcast.xml" []
                (rendered name_only_config [episode1]))
      as (override & Hov & [[_ ->] | [Hfalse _]]).
    + vm_compute. reflexivity.
    + vm_compute in Hov. injection Hov as <-. reflexivity.
    + vm_compute in Hov. injection Hov as <-. discriminate Hfalse.
  - destruct (channel_author_is_all_or_nothing sample_host sample_config
                "en" [episode1] "output/podcast.xml"
                "https://example.org/podcast.xml" []
                (rendered sample_config [episode1]))
      as (override & Hov & [[Htrue _] | [_ (f & email & Hf & He & ->)]]).
    + vm_compute. reflexivity.
    + vm_compute in Hov. injection Hov as <-. discriminate Htrue.
    + vm_compute in Hf, He. injection Hf as <-. injection He as <-.
      reflexivity.
Defined.

(** ** Initialization *)

Lemma default_config_None (key : string) :
  In key ["PODCAST_CHANNEL_TITLE"; "PODCAST_CHANNEL_LINK";
          "PODCAST_CHANNEL_DESCRIPTION"; "PODCAST_CHANNEL_AUTHOR";
          "PODCAST_CHANNEL_CATEGORY"; "PODCAST_CHANNEL_LOGO"] ->
  default_config !! key = Some VNone.
Proof.
  simpl. intros [<- | [<- | [<- | [<- | [<- | [<- | []]]]]]]; reflexivity.
Qed.

Lemma merged_lookup_default (site_config : gmap string value) (key : string) :
  default_config !! key = Some VNone ->
  (site_config ∪ default_config) !! key = Some (override site_config key).
Proof.
  intros Hd. rewrite lookup_union, Hd. unfold override.
  destruct (site_config !! key); reflexivity.
Qed.

Lemma merged_lookup_site (site_config : gmap string value) (key : string) :
  default_config !! key = None ->
  (site_config ∪ default_config) !! key = site_config !! key.
Proof.
  intros Hd. rewrite lookup_union, Hd.
  destruct (site_config !! key); reflexivity.
Qed.

(** The configuration [set_site] builds from a site configuration that has
    TRANSLATIONS. *)
Lemma set_site_run (host : Host) (site_config : gmap string value)
    (translations : value) :
  site_config !! "TRANSLATIONS" = Some translations ->
  let wrapped key :=
    VTrans (TranslatableSetting host key (override site_config key)
              translations) in
  set_site host site_config =
    Ok (<["PODCAST_CHANNEL_TITLE" := wrapped "PODCAST_CHANNEL_TITLE"]>
        (<["PODCAST_CHANNEL_DESCRIPTION" :=
             wrapped "PODCAST_CHANNEL_DESCRIPTION"]>
        (<["PODCAST_CHANNEL_CATEGORY" := wrapped "PODCAST_CHANNEL_CATEGORY"]>
        (site_config ∪ default_config)))).
Proof.
  intros Htr wrapped. unfold set_site.
  cbn [for_each]. unfold wrap_setting at 1, getitem.
  change ("PODCAST_CHANNEL_" +:+ "CATEGORY") with "PODCAST_CHANNEL_CATEGORY".
  rewrite merged_lookup_default by (apply default_config_None; simpl; tauto).
  rewrite Htr. cbn [bind].
  unfold wrap_setting at 1, getitem.
  change ("PODCAST_CHANNEL_" +:+ "DESCRIPTION")
    with "PODCAST_CHANNEL_DESCRIPTION".
  rewrite lookup_insert_ne by discriminate.
  rewrite merged_lookup_default by (apply default_config_None; simpl; tauto).
  rewrite Htr. cbn [bind].
  unfold wrap_setting at 1, getitem.
  change ("PODCAST_CHANNEL_" +:+ "TITLE") with "PODCAST_CHANNEL_TITLE".
  rewrite !lookup_insert_ne by discriminate.
  rewrite merged_lookup_default by (apply default_config_None; simpl; tauto).
  rewrite Htr. cbn [bind]. reflexivity.
Qed.

Lemma set_site_lookups (host : Host) (site_config : gmap string value)
    (translations : value) :
  site_config !! "TRANSLATIONS" = Some translations ->
  exists cfg,
    set_site host site_config = Ok cfg /\
    cfg !! "PODCAST_CHANNEL_TITLE"
      = Some (VTrans (TranslatableSetting host "PODCAST_CHANNEL_TITLE"
                        (override site_config "PODCAST_CHANNEL_TITLE")
                        translations)) /\
    cfg !! "PODCAST_CHANNEL_DESCRIPTION"
      = Some (VTrans (TranslatableSetting host "PODCAST_CHANNEL_DESCRIPTION"
                        (override site_config "PODCAST_CHANNEL_DESCRIPTION")
                        translations)) /\
    cfg !! "PODCAST_CHANNEL_LINK"
      = Some (override site_config "PODCAST_CHANNEL_LINK") /\
    cfg !! "BLOG_TITLE" = site_config !! "BLOG_TITLE" /\
    cfg !! "SITE_URL" = site_config !! "SITE_URL" /\
    cfg !! "BLOG_DESCRIPTION" = site_config !! "BLOG_DESCRIPTION".
Proof.
  intros Htr. eexists. split; [apply (set_site_run host _ _ Htr) |].
  repeat split.
  - apply lookup_insert_eq.
  - rewrite lookup_insert_ne by discriminate. apply lookup_insert_eq.
  - rewrite !lookup_insert_ne by discriminate.
    apply merged_lookup_default, default_config_None. simpl. tauto.
  - rewrite !lookup_insert_ne by discriminate.
    apply merged_lookup_site. reflexivity.
  - rewrite !lookup_insert_ne by discriminate.
    apply merged_lookup_site. reflexivity.
  - rewrite !lookup_insert_ne by discriminate.
    apply merged_lookup_site. reflexivity.
Qed.

Lemma render_channel_raises (host : Host) (cfg : gmap string value)
    (lang : string) (posts : list Post) (output_name feed_url : string)
    (log : list event) (e : exn) :
  render_channel cfg lang feed_url = Raise e ->
  render_podcast_rss host cfg lang posts output_name feed_url log
    = (Raise e, log).
Proof.
  intros Hc. unfold render_podcast_rss, bindM, lift. rewrite Hc. reflexivity.
Qed.

Lemma fallback_resolves (first second : result value) (x : value) :
  first = Ok x ->
  (truthy x = true \/ exists y, second = Ok y) ->
  exists v, py_or first second = Ok v.
Proof.
  intros -> H. unfold py_or. simpl.
  destruct (truthy x) eqn:Ht; [eauto |].
  destruct H as [H | [y ->]]; [discriminate | eauto].
Qed.

Lemma fallback_missing (first : result value) (x : value) (key : string)
    (second : result value) :
  first = Ok x -> truthy x = false -> second = Raise (KeyError key) ->
  py_or first second = Raise (KeyError key).
Proof. intros -> Ht ->. unfold py_or. simpl. rewrite Ht. reflexivity. Qed.

(** C9, as the code has it.  Initialization checks no channel field: for
    every site configuration that has TRANSLATIONS, [set_site] returns a
    configuration, also when a required field has neither override nor
    fallback.  The missing fallback is met during rendering only, where
    [render_podcast_rss] raises KeyError for the fallback setting of the
    first such field. *)
Theorem unresolved_field_raises_when_rendering
    (host : Host) (site_config : gmap string value) (translations : value)
    (lang : string) (field : required_field)
    (posts : list Post) (output_name feed_url : string) (log : list event) :
  site_config !! "TRANSLATIONS" = Some translations ->
  unresolved host site_config translations lang field ->
  exists cfg,
    set_site host site_config = Ok cfg /\
    render_podcast_rss host cfg lang posts output_name feed_url log
      = (Raise (KeyError (fallback_key field)), log).
Proof.
  intros Htr Hun.
  destruct (set_site_lookups host site_config translations Htr)
    as (cfg & Hset & Ht & Hd & Hl & Hbt & Hsu & Hbd).
  exists cfg. split; [exact Hset |]. apply render_channel_raises.
  assert (Htitle : setting cfg "PODCAST_CHANNEL_TITLE" lang
                   = Ok (TranslatableSetting host "PODCAST_CHANNEL_TITLE"
                           (override site_config "PODCAST_CHANNEL_TITLE")
                           translations lang)).
  { unfold setting, getitem. rewrite Ht. reflexivity. }
  assert (Hdescr : setting cfg "PODCAST_CHANNEL_DESCRIPTION" lang
                   = Ok (TranslatableSetting host
                           "PODCAST_CHANNEL_DESCRIPTION"
                           (override site_config
                              "PODCAST_CHANNEL_DESCRIPTION")
                           translations lang)).
  { unfold setting, getitem. rewrite Hd. reflexivity. }
  assert (Hlink : getitem cfg "PODCAST_CHANNEL_LINK"
                  = Ok (override site_config "PODCAST_CHANNEL_LINK")).
  { unfold getitem. rewrite Hl. reflexivity. }
  assert (Htitle_ok :
            (truthy (TranslatableSetting host "PODCAST_CHANNEL_TITLE"
                       (override site_config "PODCAST_CHANNEL_TITLE")
                       translations lang) = true \/
             exists f, site_config !! "BLOG_TITLE" = Some (VTrans f)) ->
            exists t, channel_title cfg lang = Ok t).
  { intros H. unfold channel_title.
    eapply fallback_resolves; [exact Htitle |].
    destruct H as [H | [f Hf]]; [left; exact H | right].
    exists (f lang). apply setting_Ok. exists f. rewrite Hbt. auto. }
  assert (Hlink_ok :
            (truthy (override site_config "PODCAST_CHANNEL_LINK") = true \/
             is_Some (site_config !! "SITE_URL")) ->
            exists l, channel_link cfg = Ok l).
  { intros H. unfold channel_link.
    eapply fallback_resolves; [exact Hlink |].
    destruct H as [H | [u Hu]]; [left; exact H | right].
    exists u. apply getitem_Ok. rewrite Hsu. exact Hu. }
  unfold render_channel.
  destruct field; simpl in Hun |- *.
  - destruct Hun as [Hfalse Hnone].
    unfold channel_title.
    rewrite (fallback_missing _ _ "BLOG_TITLE" _ Htitle Hfalse);
      [reflexivity |].
    unfold setting, getitem. rewrite Hbt, Hnone. reflexivity.
  - destruct Hun as (Hres & Hfalse & Hnone).
    destruct (Htitle_ok Hres) as [t ->]. cbn [bind].
    unfold channel_link.
    rewrite (fallback_missing _ _ "SITE_URL" _ Hlink Hfalse);
      [reflexivity |].
    unfold getitem. rewrite Hsu, Hnone. reflexivity.
  - destruct Hun as (Hres & Hlres & Hfalse & Hnone).
    destruct (Htitle_ok Hres) as [t ->]. cbn [bind].
    destruct (Hlink_ok Hlres) as [l ->]. cbn [bind].
    unfold channel_description.
    rewrite (fallback_missing _ _ "BLOG_DESCRIPTION" _ Hdescr Hfalse);
      [reflexivity |].
    unfold setting, getitem. rewrite Hbd, Hnone. reflexivity.
Qed.

Lemma unresolved_field_raises_when_rendering_witness :
  exists cfg,
    set_site sample_host bare_site_config = Ok cfg /\
    render_podcast_rss sample_host cfg "en" [episode1]
      "output/podcast.xml" "https://example.org/podcast.xml" []
      = (Raise (KeyError "BLOG_TITLE"), []).
Proof.
  apply (unresolved_field_raises_when_rendering sample_host bare_site_config
           (VDict [("en", VStr "")]) "en" TitleField).
  - reflexivity.
  - split; reflexivity.
Defined.

(** C9 fails as stated: the site configuration names its languages and has
    neither PODCAST_CHANNEL_TITLE nor BLOG_TITLE; initialization returns a
    configuration without raising, and the error comes up when the feed of
    the language is rendered. *)
Lemma missing_title_passes_initialization :
  let title := sample_translatable "PODCAST_CHANNEL_TITLE"
                 (override bare_site_config "PODCAST_CHANNEL_TITLE")
                 (VDict [("en", VStr "")]) "en" in
  truthy title = false /\
  bare_site_config !! "BLOG_TITLE" = None /\
  set_site sample_host bare_site_config
    = Ok (config_of bare_site_config) /\
  (forall e, set_site sample_host bare_site_config <> Raise e) /\
  fst (render_podcast_rss sample_host (config_of bare_site_config) "en" []
         "output/podcast.xml" "https://example.org/podcast.xml" [])
    = Raise (KeyError "BLOG_TITLE").
Proof.
  intros title. split; [reflexivity |]. split; [reflexivity |].
  assert (Hset : set_site sample_host bare_site_config
                 = Ok (config_of bare_site_config)).
  { unfold config_of.
    rewrite (set_site_run sample_host bare_site_config
               (VDict [("en", VStr "")])) by reflexivity.
    reflexivity. }
  split; [exact Hset |]. split.
  - intros e. rewrite Hset. discriminate.
  - vm_compute. reflexivity.
Qed.

(** ** Witnesses for the selection and the feed path *)

Lemma select_posts_first_matches_witness :
  let posts := [episode1; article; episode2; episode_without_permalink;
                episode_without_zone; episode_unknown_type; episode2;
                episode1] in
  length (List.filter (in_category "en" "podcast") posts) = 7%nat /\
  exists chosen,
    select_posts posts "en" "podcast" (VInt 5) = Ok chosen /\
    chosen = [episode1; episode2; episode_without_permalink;
              episode_without_zone; episode_unknown_type].
Proof.
  intros posts. split; [reflexivity |].
  destruct (select_posts_first_matches posts "en" "podcast" 5)
    as (chosen & Hsel & Heq & _); [lia |].
  exists chosen. split; [exact Hsel |]. rewrite Heq. reflexivity.
Defined.

(** A negative FEED_LENGTH is a slice stop counted from the end: it drops
    the last matches instead of bounding their number. *)
Example select_posts_negative_length :
  select_posts [episode1; article; episode2; episode_without_zone]
    "en" "podcast" (VInt (-1)) = Ok [episode1; episode2].
Proof. reflexivity. Qed.

Lemma rss_path_drops_falsy_witness :
  rss_path sample_config "podcast_rss" "en" = Ok [VStr "podcast.xml"].
Proof.
  destruct (rss_path_drops_falsy sample_config "podcast_rss" "en"
              (VDict [("en", VStr ""); ("es", VStr "./es")])
              (VStr "") (VStr "podcast.xml"))
    as (_ & _ & Hempty).
  - vm_compute. reflexivity.
  - reflexivity.
  - vm_compute. reflexivity.
  - rewrite Hempty; reflexivity.
Defined.

(** * Further properties of the module *)

(** ** Enclosures and metadata *)

(** X1.  [_enclosure] returns only for a post without enclosure reference,
    and then it returns None without any outside call; for a post with a
    reference it raises NameError for [slug], again without any call. *)
Theorem _enclosure_outcome
    (host : Host) (p : Post) (lang : string) (log : list event) :
  _enclosure host p lang log =
    if truthy (post_meta p lang "enclosure")
    then (Raise (NameError "slug"), log)
    else (Ok VNone, log).
Proof.
  unfold _enclosure.
  destruct (truthy (post_meta p lang "enclosure")) eqn:Ht.
  - rewrite _enclosure_with_run by exact Ht.
    rewrite size_lookup_raises. reflexivity.
  - apply _enclosure_without_reference. exact Ht.
Qed.

Lemma head_requests_app (url : string) (log more : list event) :
  head_requests url (log ++ more)
    = (head_requests url log + head_requests url more)%nat.
Proof.
  unfold head_requests. rewrite List.filter_app. apply length_app.
Qed.

(** X2.  [get_enclosure_duration] asks the metadata provider once for the
    URL and returns or raises exactly what the provider does, the whole
    answer and no duration taken out of it; it sends no HEAD request. *)
Theorem get_enclosure_duration_is_provider_answer
    (host : Host) (url : value) (log : list event) :
  get_enclosure_duration host url log
    = (provider_request host url, log ++ [EvProvider url]) /\
  forall u, head_requests u (snd (get_enclosure_duration host url log))
            = head_requests u log.
Proof.
  assert (H : get_enclosure_duration host url log
              = (provider_request host url, log ++ [EvProvider url])).
  { unfold get_enclosure_duration, get_enclosure_metadata, bindM, ret.
    destruct (provider_request host url); reflexivity. }
  split; [exact H |]. intros u. rewrite H. simpl.
  rewrite head_requests_app. unfold head_requests at 2. simpl. lia.
Qed.

(** ** Initialization, continued *)

Lemma set_site_needs_translations (host : Host)
    (site_config : gmap string value) :
  site_config !! "TRANSLATIONS" = None ->
  set_site host site_config = Raise (KeyError "TRANSLATIONS").
Proof.
  intros Hnone. unfold set_site. cbn [for_each].
  unfold wrap_setting at 1, getitem.
  change ("PODCAST_CHANNEL_" +:+ "CATEGORY") with "PODCAST_CHANNEL_CATEGORY".
  rewrite merged_lookup_default by (apply default_config_None; simpl; tauto).
  rewrite Hnone. reflexivity.
Qed.

(** X3.  A site configuration without TRANSLATIONS makes [set_site] raise
    KeyError for that key, whatever else it holds. *)
Theorem set_site_without_translations_raises
    (host : Host) (site_config : gmap string value) :
  site_config !! "TRANSLATIONS" = None ->
  set_site host site_config = Raise (KeyError "TRANSLATIONS").
Proof. apply set_site_needs_translations. Qed.

Lemma set_site_without_translations_raises_witness :
  set_site sample_host (delete "TRANSLATIONS" sample_site_config)
    = Raise (KeyError "TRANSLATIONS").
Proof.
  apply set_site_without_translations_raises. vm_compute. reflexivity.
Defined.

Lemma set_site_Ok_translations (host : Host)
    (site_config cfg : gmap string value) :
  set_site host site_config = Ok cfg ->
  exists translations, site_config !! "TRANSLATIONS" = Some translations.
Proof.
  intros H. destruct (site_config !! "TRANSLATIONS") as [tr |] eqn:E;
    [eauto |].
  rewrite (set_site_needs_translations host site_config E) in H.
  discriminate H.
Qed.

(** X4.  In the configuration [set_site] returns, every key but the three
    wrapped channel settings holds the site's value when the site has one
    and the plug-in's default otherwise; keys of neither are absent. *)
Theorem set_site_lets_the_site_win
    (host : Host) (site_config cfg : gmap string value) (key : string) :
  set_site host site_config = Ok cfg ->
  key <> "PODCAST_CHANNEL_TITLE" ->
  key <> "PODCAST_CHANNEL_DESCRIPTION" ->
  key <> "PODCAST_CHANNEL_CATEGORY" ->
  cfg !! key = match site_config !! key with
               | Some v => Some v
               | None => default_config !! key
               end.
Proof.
  intros Hset Ht Hd Hc.
  destruct (set_site_Ok_translations host site_config cfg Hset) as [tr Htr].
  rewrite (set_site_run host site_config tr Htr) in Hset.
  injection Hset as <-.
  rewrite !lookup_insert_ne by congruence.
  rewrite lookup_union.
  destruct (site_config !! key), (default_config !! key); reflexivity.
Qed.

Lemma set_site_lets_the_site_win_witness :
  sample_config !! "PODCAST_RSS_PATH" = Some (VStr "podcast.xml") /\
  sample_config !! "BLOG_EMAIL" = Some (VStr "site@example.org") /\
  sample_config !! "NO_SUCH_SETTING" = None.
Proof.
  assert (Hset : set_site sample_host sample_site_config = Ok sample_config).
  { unfold sample_config, config_of.
    rewrite (set_site_run sample_host sample_site_config
               (VDict [("en", VStr ""); ("es", VStr "./es")]))
      by reflexivity.
    reflexivity. }
  split; [| split].
  - rewrite (set_site_lets_the_site_win sample_host sample_site_config
               sample_config "PODCAST_RSS_PATH" Hset) by discriminate.
    reflexivity.
  - rewrite (set_site_lets_the_site_win sample_host sample_site_config
               sample_config "BLOG_EMAIL" Hset) by discriminate.
    reflexivity.
  - rewrite (set_site_lets_the_site_win sample_host sample_site_config
               sample_config "NO_SUCH_SETTING" Hset) by discriminate.
    reflexivity.
Defined.

(** X5.  After [set_site] the title, description and category settings of
    the channel can be called with any language: each gives the translatable
    setting made from the site's value, or from None when the site has
    none, also when the site wrote a plain value there. *)
Theorem set_site_makes_settings_callable
    (host : Host) (site_config cfg : gmap string value)
    (translations : value) (lang : string) :
  site_config !! "TRANSLATIONS" = Some translations ->
  set_site host site_config = Ok cfg ->
  Forall (fun key =>
            setting cfg key lang
              = Ok (TranslatableSetting host key (override site_config key)
                      translations lang))
         ["PODCAST_CHANNEL_TITLE"; "PODCAST_CHANNEL_DESCRIPTION";
          "PODCAST_CHANNEL_CATEGORY"].
Proof.
  intros Htr Hset.
  rewrite (set_site_run host site_config translations Htr) in Hset.
  injection Hset as <-.
  repeat (apply List.Forall_cons); [| | | apply List.Forall_nil];
    unfold setting, getitem.
  - rewrite lookup_insert_eq. reflexivity.
  - rewrite lookup_insert_ne by discriminate.
    rewrite lookup_insert_eq. reflexivity.
  - rewrite !lookup_insert_ne by discriminate.
    rewrite lookup_insert_eq. reflexivity.
Qed.

Lemma set_site_makes_settings_callable_witness :
  setting titled_config "PODCAST_CHANNEL_TITLE" "es" = Ok (VStr "Radio Hour") /\
  setting titled_config "PODCAST_CHANNEL_CATEGORY" "es" = Ok VNone.
Proof.
  pose proof (set_site_makes_settings_callable sample_host
                (<["PODCAST_CHANNEL_TITLE" := VStr "Radio Hour"]>
                   sample_site_config)
                titled_config
                (VDict [("en", VStr ""); ("es", VStr "./es")]) "es") as H.
  assert (Hall : Forall
            (fun key =>
               setting titled_config key "es"
                 = Ok (TranslatableSetting sample_host key
                         (override (<["PODCAST_CHANNEL_TITLE" :=
                                        VStr "Radio Hour"]>
                                      sample_site_config) key)
                         (VDict [("en", VStr ""); ("es", VStr "./es")]) "es"))
            ["PODCAST_CHANNEL_TITLE"; "PODCAST_CHANNEL_DESCRIPTION";
             "PODCAST_CHANNEL_CATEGORY"]).
  { apply H.
    - vm_compute. reflexivity.
    - unfold titled_config, config_of.
      rewrite (set_site_run sample_host _
                 (VDict [("en", VStr ""); ("es", VStr "./es")]))
        by (vm_compute; reflexivity).
      reflexivity. }
  inversion Hall as [| ? ? Ht Hrest]. inversion Hrest as [| ? ? _ Hrest'].
  inversion Hrest' as [| ? ? Hc _].
  split; [rewrite Ht | rewrite Hc]; reflexivity.
Defined.

(** ** The feed path, continued *)

(** X6.  For the configuration [set_site] returns and a language of the
    site's TRANSLATIONS, [rss_path] returns the truthy ones of the
    language's prefix and the feed path, which is the site's
    PODCAST_RSS_PATH when it has one and "podcast.xml" otherwise. *)
Theorem rss_path_after_set_site
    (host : Host) (site_config cfg : gmap string value)
    (translations prefix : value) (name lang : string) :
  set_site host site_config = Ok cfg ->
  site_config !! "TRANSLATIONS" = Some translations ->
  subscript translations lang = Ok prefix ->
  rss_path cfg name lang =
    Ok (List.filter truthy
          [prefix;
           match site_config !! "PODCAST_RSS_PATH" with
           | Some path => path
           | None => VStr "podcast.xml"
           end]).
Proof.
  intros Hset Htr Hp.
  rewrite (set_site_run host site_config translations Htr) in Hset.
  injection Hset as <-.
  unfold rss_path, getitem.
  rewrite !lookup_insert_ne by discriminate.
  rewrite merged_lookup_site by reflexivity. rewrite Htr. cbn [bind].
  rewrite Hp. cbn [bind].
  rewrite ?lookup_insert_ne by discriminate.
  rewrite lookup_union.
  destruct (site_config !! "PODCAST_RSS_PATH"); reflexivity.
Qed.

Lemma rss_path_after_set_site_witness :
  rss_path sample_config "podcast_rss" "es"
    = Ok [VStr "./es"; VStr "podcast.xml"].
Proof.
  rewrite (rss_path_after_set_site sample_host sample_site_config
             sample_config (VDict [("en", VStr ""); ("es", VStr "./es")])
             (VStr "./es") "podcast_rss" "es").
  - reflexivity.
  - unfold sample_config, config_of.
    rewrite (set_site_run sample_host sample_site_config
               (VDict [("en", VStr ""); ("es", VStr "./es")]))
      by reflexivity.
    reflexivity.
  - reflexivity.
  - reflexivity.
Defined.

(** X7.  For a language that the TRANSLATIONS dict does not have,
    [rss_path] raises KeyError for that language. *)
Theorem rss_path_unknown_language
    (config : gmap string value) (name lang : string)
    (entries : list (string * value)) :
  config !! "TRANSLATIONS" = Some (VDict entries) ->
  assoc lang entries = None ->
  rss_path config name lang = Raise (KeyError lang).
Proof.
  intros Ht Hnone. unfold rss_path, getitem. rewrite Ht. cbn [bind].
  unfold subscript. rewrite Hnone. reflexivity.
Qed.

Lemma rss_path_unknown_language_witness :
  rss_path sample_config "podcast_rss" "fr" = Raise (KeyError "fr").
Proof.
  apply (rss_path_unknown_language sample_config "podcast_rss" "fr"
           [("en", VStr ""); ("es", VStr "./es")]).
  - vm_compute. reflexivity.
  - reflexivity.
Defined.

(** ** Selection of the episodes, continued *)

Lemma filter_Forall {A : Type} (f : A -> bool) (l : list A) :
  Forall (fun x => f x = true) (List.filter f l).
Proof.
  apply List.Forall_forall. intros x Hx. apply filter_In in Hx. tauto.
Qed.

Lemma slice_to_prefix {A : Type} (items chosen : list A) (stop : value) :
  slice_to items stop = Ok chosen -> exists n, chosen = take n items.
Proof.
  unfold slice_to. destruct stop; try discriminate.
  - intros [= <-]. exists (length items). symmetry. apply firstn_all.
  - intros [= <-]. eauto.
  - destruct (0 <=? n); intros [= <-]; eauto.
Qed.

(** X8.  Whatever FEED_LENGTH holds, the selection returns exactly when the
    value is None, an integer or a bool, and raises TypeError exactly when
    it is anything else.  What it returns is an initial segment of the
    matching posts: posts of the category only, in the order of the input,
    none left out before the last one selected, and all of them for None. *)
Theorem select_posts_is_initial_segment
    (posts : list Post) (lang category : string) (feed_length : value) :
  let matches := List.filter (in_category lang category) posts in
  match select_posts posts lang category feed_length with
  | Ok chosen =>
      (feed_length = VNone \/ (exists n, feed_length = VInt n) \/
       (exists b, feed_length = VBool b)) /\
      chosen `prefix_of` matches /\
      Forall (fun p => post_meta p lang "category" = VStr category) chosen /\
      sublist chosen posts /\
      (feed_length = VNone -> chosen = matches)
  | Raise e =>
      e = TypeError "slice indices must be integers or None" /\
      feed_length <> VNone /\
      (forall n, feed_length <> VInt n) /\
      (forall b, feed_length <> VBool b)
  end.
Proof.
  intros matches.
  destruct (select_posts posts lang category feed_length) as [chosen | e]
    eqn:Hsel; unfold select_posts in Hsel; fold matches in Hsel.
  - split.
    { unfold slice_to in Hsel.
      destruct feed_length; try discriminate Hsel; eauto. }
    destruct (slice_to_prefix matches chosen feed_length Hsel) as [n ->].
    split; [apply prefix_take |]. split; [| split].
    + apply List.Forall_forall. intros p Hp.
      apply in_category_meta.
      assert (Hm : In p matches).
      { apply list_elem_of_In.
        eapply elem_of_sublist; [| apply sublist_take].
        apply list_elem_of_In. exact Hp. }
      apply filter_In in Hm. tauto.
    + transitivity matches; [apply sublist_take | apply filter_sublist].
    + intros ->. simpl in Hsel. congruence.
  - unfold slice_to in Hsel.
    destruct feed_length; try discriminate Hsel;
      try (injection Hsel as <-;
           split; [reflexivity |]; split; [discriminate |];
           split; intros; discriminate).
    destruct (0 <=? n); discriminate Hsel.
Qed.

(** X9.  Selecting again from a selection changes nothing: for a maximum
    count [n >= 0] the selected posts, selected once more with the same
    language, category and count, are the same list. *)
Theorem select_posts_idempotent
    (posts chosen : list Post) (lang category : string) (n : Z) :
  0 <= n ->
  select_posts posts lang category (VInt n) = Ok chosen ->
  select_posts chosen lang category (VInt n) = Ok chosen.
Proof.
  intros Hn Hsel. unfold select_posts, slice_to in *.
  destruct (0 <=? n) eqn:E; [| apply Z.leb_gt in E; lia].
  injection Hsel as <-.
  rewrite filter_all.
  - rewrite take_take, Nat.min_id. reflexivity.
  - apply List.Forall_forall. intros p Hp.
    assert (Hm : In p (List.filter (in_category lang category) posts)).
    { apply list_elem_of_In.
      eapply elem_of_sublist; [| apply sublist_take].
      apply list_elem_of_In. exact Hp. }
    apply filter_In in Hm. tauto.
Qed.

Lemma select_posts_idempotent_witness :
  select_posts [episode1; episode2] "en" "podcast" (VInt 2)
    = Ok [episode1; episode2].
Proof.
  apply (select_posts_idempotent
           [episode1; article; episode2; episode_without_zone]).
  - lia.
  - reflexivity.
Defined.

(** X10.  A negative FEED_LENGTH [-k] does not bound the feed: the selection
    is the matching posts without their last [k], so it grows with the
    number of matches. *)
Theorem select_posts_negative_drops_last
    (posts : list Post) (lang category : string) (n : Z) :
  n < 0 ->
  let matches := List.filter (in_category lang category) posts in
  exists chosen dropped,
    select_posts posts lang category (VInt n) = Ok chosen /\
    matches = chosen ++ dropped /\
    length dropped = Nat.min (Z.to_nat (- n)) (length matches).
Proof.
  intros Hn matches.
  exists (take (length matches - Z.to_nat (- n)) matches),
         (drop (length matches - Z.to_nat (- n)) matches).
  split; [| split].
  - unfold select_posts, slice_to. fold matches.
    destruct (0 <=? n) eqn:E; [apply Z.leb_le in E; lia | reflexivity].
  - symmetry. apply take_drop.
  - rewrite length_drop. lia.
Qed.

Lemma select_posts_negative_drops_last_witness :
  exists chosen dropped,
    select_posts [episode1; article; episode2; episode_without_zone]
      "en" "podcast" (VInt (-2)) = Ok chosen /\
    [episode1; episode2; episode_without_zone] = chosen ++ dropped /\
    length dropped = 2%nat.
Proof.
  apply (select_posts_negative_drops_last
           [episode1; article; episode2; episode_without_zone]
           "en" "podcast" (-2)).
  lia.
Defined.

(** ** Entries, continued *)

Lemma render_entry_fields (host : Host) (cfg : gmap string value)
    (lang : string) (p : Post) (fe : FeedEntry) :
  render_entry host cfg lang p = Ok fe ->
  exists teaser_only strip_html read_more append_query,
    cfg !! "FEED_TEASERS" = Some teaser_only /\
    cfg !! "FEED_PLAIN" = Some strip_html /\
    cfg !! "FEED_READ_MORE_LINK" = Some read_more /\
    cfg !! "FEED_LINKS_APPEND_QUERY" = Some append_query /\
    fe_content fe
      = post_text p lang teaser_only strip_html read_more append_query /\
    fe_summary fe = post_description p lang /\
    fe_link fe = {| href := post_permalink p lang; link_title := VNone;
                    rel := "alternate" |} /\
    fe_author fe
      = if truthy (post_author p lang)
           || truthy (post_meta_get p lang "email")
        then Some (post_author p lang, post_meta_get p lang "email")
        else None.
Proof.
  unfold render_entry. intros H.
  do 4 bind_inv H. unfold get_author_info in H. bind_inv H.
  apply getitem_Ok in Hx, Hx0, Hx1, Hx2.
  injection H as <-. simpl. exists x, x0, x1, x2. auto 10.
Qed.

(** X11.  In a feed that is handed over, an entry has an author block
    exactly when its post has a truthy author name or a truthy e-mail, and
    the block then holds both values as the post gives them. *)
Theorem author_block_only_when_known
    (host : Host) (cfg : gmap string value) (lang : string)
    (posts : list Post) (output_name feed_url : string) (log : list event)
    (doc : FeedGenerator) :
  fst (render_podcast_rss host cfg lang posts output_name feed_url log)
    = Ok doc ->
  Forall2 (fun p fe =>
             let name := post_author p lang in
             let email := post_meta_get p lang "email" in
             (truthy name = false /\ truthy email = false /\
              fe_author fe = None) \/
             ((truthy name = true \/ truthy email = true) /\
              fe_author fe = Some (name, email)))
          posts (fg_entries doc).
Proof.
  intros H. apply render_Ok in H as (fg & es & _ & Hes & _ & ->).
  eapply Forall2_impl; [exact Hes |].
  intros p fe Hp. apply render_entry_fields in Hp
    as (a & b & c & d & _ & _ & _ & _ & _ & _ & _ & Hauthor).
  cbn zeta. rewrite Hauthor.
  destruct (truthy (post_author p lang)),
           (truthy (post_meta_get p lang "email")); simpl; auto.
Qed.

Lemma author_block_only_when_known_witness :
  fe_author <$> fg_entries (rendered sample_config
                              [episode1; anonymous_episode])
    = [Some (VStr "Site Author", VNone); None] /\
  Forall2 (fun p fe =>
             let name := post_author p "en" in
             let email := post_meta_get p "en" "email" in
             (truthy name = false /\ truthy email = false /\
              fe_author fe = None) \/
             ((truthy name = true \/ truthy email = true) /\
              fe_author fe = Some (name, email)))
          [episode1; anonymous_episode]
          (fg_entries (rendered sample_config
                         [episode1; anonymous_episode])).
Proof.
  split; [reflexivity |].
  apply (author_block_only_when_known sample_host sample_config "en"
           [episode1; anonymous_episode] "output/podcast.xml"
           "https://example.org/podcast.xml" []).
  vm_compute. reflexivity.
Defined.

(** X12.  In a feed that is handed over for a non-empty list, the content
    of every entry is the post's text rendered with the four FEED_ flags of
    the configuration, passed on as they are, and its summary is the post's
    description. *)
Theorem content_is_rendered_with_the_feed_flags
    (host : Host) (cfg : gmap string value) (lang : string)
    (p : Post) (posts : list Post) (output_name feed_url : string)
    (log : list event) (doc : FeedGenerator) :
  fst (render_podcast_rss host cfg lang (p :: posts) output_name feed_url
         log) = Ok doc ->
  exists teaser_only strip_html read_more append_query,
    cfg !! "FEED_TEASERS" = Some teaser_only /\
    cfg !! "FEED_PLAIN" = Some strip_html /\
    cfg !! "FEED_READ_MORE_LINK" = Some read_more /\
    cfg !! "FEED_LINKS_APPEND_QUERY" = Some append_query /\
    Forall2 (fun q fe =>
               fe_content fe = post_text q lang teaser_only strip_html
                                 read_more append_query /\
               fe_summary fe = post_description q lang)
            (p :: posts) (fg_entries doc).
Proof.
  intros H. apply render_Ok in H as (fg & es & _ & Hes & _ & ->).
  inversion Hes as [| ? fe ? es' Hp Hrest]; subst.
  destruct (render_entry_fields host cfg lang p fe Hp)
    as (a & b & c & d & Ha & Hb & Hc & Hd & _).
  exists a, b, c, d. repeat (split; [assumption |]).
  eapply Forall2_impl; [exact Hes |].
  intros q fq Hq. apply render_entry_fields in Hq
    as (a' & b' & c' & d' & Ha' & Hb' & Hc' & Hd' & Hcontent & Hsum & _).
  rewrite Ha in Ha'. rewrite Hb in Hb'. rewrite Hc in Hc'.
  rewrite Hd in Hd'.
  injection Ha' as <-. injection Hb' as <-. injection Hc' as <-.
  injection Hd' as <-. auto.
Qed.

Lemma content_is_rendered_with_the_feed_flags_witness :
  exists teaser_only,
    sample_config !! "FEED_TEASERS" = Some teaser_only /\
    map fe_content (fg_entries (rendered sample_config [episode1; article]))
      = [post_text episode1 "en" teaser_only (VBool false) (VBool false)
           (VBool false);
         post_text article "en" teaser_only (VBool false) (VBool false)
           (VBool false)].
Proof.
  destruct (content_is_rendered_with_the_feed_flags sample_host
              sample_config "en" episode1 [article] "output/podcast.xml"
              "https://example.org/podcast.xml" []
              (rendered sample_config [episode1; article]))
    as (a & b & c & d & Ha & _).
  - vm_compute. reflexivity.
  - exists a. split; [exact Ha |]. vm_compute. reflexivity.
Defined.

Lemma render_channel_agrees (cfg cfg' : gmap string value)
    (lang feed_url : string) :
  (forall key,
     ~ In key ["FEED_TEASERS"; "FEED_PLAIN"; "FEED_READ_MORE_LINK";
               "FEED_LINKS_APPEND_QUERY"] ->
     cfg !! key = cfg' !! key) ->
  render_channel cfg lang feed_url = render_channel cfg' lang feed_url.
Proof.
  intros H.
  assert (Hget : forall key,
            ~ In key ["FEED_TEASERS"; "FEED_PLAIN"; "FEED_READ_MORE_LINK";
                      "FEED_LINKS_APPEND_QUERY"] ->
            getitem cfg key = getitem cfg' key).
  { intros key Hkey. unfold getitem. rewrite (H key Hkey). reflexivity. }
  unfold render_channel, channel_title, channel_link, channel_description,
    channel_author, setting.
  rewrite !(Hget "PODCAST_CHANNEL_TITLE"), !(Hget "BLOG_TITLE"),
    !(Hget "PODCAST_CHANNEL_LINK"), !(Hget "SITE_URL"),
    !(Hget "PODCAST_CHANNEL_DESCRIPTION"), !(Hget "BLOG_DESCRIPTION"),
    !(Hget "PODCAST_CHANNEL_AUTHOR"), !(Hget "BLOG_AUTHOR"),
    !(Hget "BLOG_EMAIL"), !(Hget "PODCAST_CHANNEL_CATEGORY"),
    !(Hget "PODCAST_CHANNEL_LOGO"), !(Hget "LOGO_URL");
    try reflexivity;
    simpl; intros [E | [E | [E | [E | []]]]]; discriminate E.
Qed.

(** X13.  For an empty list of posts the four FEED_ flags are never read:
    two configurations that differ in those flags only, or in whether they
    have them, give the same outcome, feed or exception, without any
    outside call; and a feed handed over for no posts has no entries. *)
Theorem render_without_posts
    (host : Host) (cfg cfg' : gmap string value) (lang : string)
    (output_name feed_url : string) (log : list event) :
  (forall key,
     ~ In key ["FEED_TEASERS"; "FEED_PLAIN"; "FEED_READ_MORE_LINK";
               "FEED_LINKS_APPEND_QUERY"] ->
     cfg !! key = cfg' !! key) ->
  render_podcast_rss host cfg lang [] output_name feed_url log
    = render_podcast_rss host cfg' lang [] output_name feed_url log /\
  snd (render_podcast_rss host cfg lang [] output_name feed_url log) = log /\
  forall doc,
    fst (render_podcast_rss host cfg lang [] output_name feed_url log)
      = Ok doc ->
    fg_entries doc = [].
Proof.
  intros H. split; [| split].
  - unfold render_podcast_rss, bindM, lift, ret.
    rewrite (render_channel_agrees cfg cfg' lang feed_url H).
    destruct (render_channel cfg' lang feed_url); reflexivity.
  - apply render_log.
  - intros doc Hdoc. apply render_Ok in Hdoc as (fg & es & _ & Hes & _ & ->).
    inversion Hes. reflexivity.
Qed.

Lemma render_without_posts_witness :
  render_podcast_rss sample_host sample_config "en" [] "output/podcast.xml"
    "https://example.org/podcast.xml" []
    = render_podcast_rss sample_host (delete "FEED_TEASERS" sample_config)
        "en" [] "output/podcast.xml" "https://example.org/podcast.xml" [] /\
  snd (render_podcast_rss sample_host sample_config "en" []
         "output/podcast.xml" "https://example.org/podcast.xml" []) = [] /\
  forall doc,
    fst (render_podcast_rss sample_host sample_config "en" []
           "output/podcast.xml" "https://example.org/podcast.xml" [])
      = Ok doc ->
    fg_entries doc = [].
Proof.
  apply (render_without_posts sample_host sample_config
           (delete "FEED_TEASERS" sample_config)).
  intros key Hkey. symmetry. apply lookup_delete_ne.
  intros <-. apply Hkey. simpl. auto.
Defined.

(** X14.  With at least one post, the rendering flags are required: when
    one of the four is not configured, [render_podcast_rss] raises KeyError
    for the first missing one, in the order FEED_TEASERS, FEED_PLAIN,
    FEED_READ_MORE_LINK, FEED_LINKS_APPEND_QUERY, and hands over no feed. *)
Theorem render_needs_the_feed_flags
    (host : Host) (cfg : gmap string value) (lang : string)
    (p : Post) (posts : list Post) (output_name feed_url : string)
    (log : list event) (fg : FeedGenerator) (before after : list string)
    (key : string) :
  render_channel cfg lang feed_url = Ok fg ->
  ["FEED_TEASERS"; "FEED_PLAIN"; "FEED_READ_MORE_LINK";
   "FEED_LINKS_APPEND_QUERY"] = before ++ key :: after ->
  Forall (fun k => is_Some (cfg !! k)) before ->
  cfg !! key = None ->
  render_podcast_rss host cfg lang (p :: posts) output_name feed_url log
    = (Raise (KeyError key), log).
Proof.
  intros Hc Hkeys Hbefore Hnone.
  rewrite (render_run host cfg lang (p :: posts) _ _ log fg Hc).
  cbn [for_each]. unfold loop_body at 1, render_entry, getitem.
  destruct before as [| k1 [| k2 [| k3 [| k4 before]]]];
    simpl in Hkeys; injection Hkeys; intros; subst;
    repeat match goal with
           | H : Forall _ (_ :: _) |- _ =>
               let Hk := fresh "Hk" in
               apply Forall_cons in H as [[? Hk] H]; rewrite Hk
           end;
    try rewrite Hnone; try reflexivity.
  destruct before; discriminate.
Qed.

Lemma render_needs_the_feed_flags_witness :
  render_podcast_rss sample_host (delete "FEED_PLAIN" sample_config) "en"
    [episode1] "output/podcast.xml" "https://example.org/podcast.xml" []
    = (Raise (KeyError "FEED_PLAIN"), []).
Proof.
  apply (render_needs_the_feed_flags sample_host
           (delete "FEED_PLAIN" sample_config) "en" episode1 []
           "output/podcast.xml" "https://example.org/podcast.xml" []
           (rendered (delete "FEED_PLAIN" sample_config) [])
           ["FEED_TEASERS"] ["FEED_READ_MORE_LINK"; "FEED_LINKS_APPEND_QUERY"]
           "FEED_PLAIN").
  - vm_compute. reflexivity.
  - reflexivity.
  - apply List.Forall_cons; [| apply List.Forall_nil].
    vm_compute. eauto.
  - vm_compute. reflexivity.
Defined.

(** ** The channel, continued *)

Lemma add_entries_channel (es : list FeedEntry) (fg : FeedGenerator) :
  let doc := fold_left add_entry es fg in
  fg_extensions doc = fg_extensions fg /\ fg_id doc = fg_id fg /\
  fg_title doc = fg_title fg /\ fg_links doc = fg_links fg /\
  fg_description doc = fg_description fg /\
  fg_language doc = fg_language fg /\
  fg_generator doc = fg_generator fg /\
  fg_category doc = fg_category fg /\
  fg_icon doc = fg_icon fg /\ fg_logo doc = fg_logo fg.
Proof.
  revert fg. induction es as [| fe es IH]; intros fg; simpl.
  - repeat split.
  - specialize (IH (add_entry fg fe)). simpl in IH. exact IH.
Qed.

Lemma render_channel_fields (cfg : gmap string value)
    (lang feed_url : string) (fg : FeedGenerator) :
  render_channel cfg lang feed_url = Ok fg ->
  exists title link description category logo,
    channel_title cfg lang = Ok title /\
    channel_link cfg = Ok link /\
    channel_description cfg lang = Ok description /\
    setting cfg "PODCAST_CHANNEL_CATEGORY" lang = Ok category /\
    py_or (getitem cfg "PODCAST_CHANNEL_LOGO") (getitem cfg "LOGO_URL")
      = Ok logo /\
    fg_id fg = feed_url /\ fg_language fg = lang /\
    fg_title fg = title /\ fg_description fg = description /\
    fg_links fg = [ {| href := link; link_title := title;
                       rel := "alternate" |};
                    {| href := VStr feed_url; link_title := VNone;
                       rel := "self" |} ] /\
    (if truthy category
     then exists items joined,
            iterate category = Ok items /\ join "/" items = Ok joined /\
            fg_category fg = Some (joined, items)
     else fg_category fg = None) /\
    fg_icon fg = (if truthy logo then Some logo else None) /\
    fg_logo fg = fg_icon fg.
Proof.
  unfold render_channel. intros H. do 8 bind_inv H.
  injection H as <-. simpl.
  exists x, x0, x1, x3, x5. repeat (split; [assumption || reflexivity |]).
  split; [| split].
  - destruct (truthy x3).
    + rewrite Hx3 in Hx4. cbn [bind] in Hx4.
      bind_inv Hx4. bind_inv Hx4. rewrite Hx7 in Hx4. cbn [bind] in Hx4.
      injection Hx4 as <-. eauto.
    + injection Hx4 as <-. reflexivity.
  - destruct (truthy x5).
    + rewrite Hx5 in Hx6. cbn [bind] in Hx6. injection Hx6 as <-.
      reflexivity.
    + injection Hx6 as <-. reflexivity.
  - destruct (truthy x5).
    + rewrite Hx5 in Hx6. cbn [bind] in Hx6. injection Hx6 as <-.
      reflexivity.
    + injection Hx6 as <-. reflexivity.
Qed.

Lemma render_Ok_channel (host : Host) (cfg : gmap string value)
    (lang : string) (posts : list Post) (output_name feed_url : string)
    (log : list event) (doc : FeedGenerator) :
  fst (render_podcast_rss host cfg lang posts output_name feed_url log)
    = Ok doc ->
  exists fg,
    render_channel cfg lang feed_url = Ok fg /\
    fg_id doc = fg_id fg /\ fg_title doc = fg_title fg /\
    fg_links doc = fg_links fg /\
    fg_description doc = fg_description fg /\
    fg_language doc = fg_language fg /\
    fg_category doc = fg_category fg /\
    fg_icon doc = fg_icon fg /\ fg_logo doc = fg_logo fg.
Proof.
  intros H. apply render_Ok in H as (fg & es & Hc & _ & -> & _).
  exists fg. split; [exact Hc |].
  pose proof (add_entries_channel es fg) as Hdoc. cbn zeta in Hdoc. tauto.
Qed.

Lemma translated_or_fallback (cfg : gmap string value)
    (first second lang : string) (v : value) :
  py_or (setting cfg first lang) (setting cfg second lang) = Ok v ->
  exists f,
    cfg !! first = Some (VTrans f) /\
    ((truthy (f lang) = true /\ v = f lang) \/
     (truthy (f lang) = false /\
      exists g, cfg !! second = Some (VTrans g) /\ v = g lang)).
Proof.
  intros H. apply py_or_Ok in H as [[Ha Ht] | (x & Ha & Ht & Hb)];
    apply setting_Ok in Ha as (f & Hf & Hv); exists f;
    (split; [exact Hf |]).
  - left. subst v. auto.
  - right. subst x. split; [exact Ht |].
    apply setting_Ok in Hb as (g & Hg & Hv). eauto.
Qed.

(** X15.  The title and the description of a feed that is handed over are
    the channel's own setting for the language when that is truthy, and
    else the site-wide BLOG_TITLE or BLOG_DESCRIPTION for the language; the
    site-wide setting is not even read when the channel has its own. *)
Theorem title_and_description_prefer_the_override
    (host : Host) (cfg : gmap string value) (lang : string)
    (posts : list Post) (output_name feed_url : string) (log : list event)
    (doc : FeedGenerator) :
  fst (render_podcast_rss host cfg lang posts output_name feed_url log)
    = Ok doc ->
  (exists f,
     cfg !! "PODCAST_CHANNEL_TITLE" = Some (VTrans f) /\
     ((truthy (f lang) = true /\ fg_title doc = f lang) \/
      (truthy (f lang) = false /\
       exists g, cfg !! "BLOG_TITLE" = Some (VTrans g) /\
                 fg_title doc = g lang))) /\
  (exists f,
     cfg !! "PODCAST_CHANNEL_DESCRIPTION" = Some (VTrans f) /\
     ((truthy (f lang) = true /\ fg_description doc = f lang) \/
      (truthy (f lang) = false /\
       exists g, cfg !! "BLOG_DESCRIPTION" = Some (VTrans g) /\
                 fg_description doc = g lang))).
Proof.
  intros H. apply render_Ok_channel in H
    as (fg & Hc & _ & -> & _ & -> & _).
  apply render_channel_fields in Hc
    as (title & link & description & category & logo & Ht & _ & Hd & _ & _
        & _ & _ & -> & -> & _).
  split; apply translated_or_fallback; assumption.
Qed.

Lemma title_and_description_prefer_the_override_witness :
  fg_title (rendered (delete "BLOG_TITLE" titled_config) [episode1])
    = VStr "Radio Hour" /\
  fg_description (rendered (delete "BLOG_TITLE" titled_config) [episode1])
    = VStr "Notes on radio".
Proof.
  destruct (title_and_description_prefer_the_override sample_host
              (delete "BLOG_TITLE" titled_config) "en" [episode1]
              "output/podcast.xml" "https://example.org/podcast.xml" []
              (rendered (delete "BLOG_TITLE" titled_config) [episode1]))
    as [(f & Hf & Htitle) (g & Hg & Hdescr)].
  - vm_compute. reflexivity.
  - split.
    + destruct Htitle as [[_ ->] | [Hfalse _]];
        vm_compute in Hf; injection Hf as <-;
        [reflexivity | discriminate Hfalse].
    + destruct Hdescr as [[Htrue _] | [_ (h & Hh & ->)]];
        vm_compute in Hg; injection Hg as <-;
        [discriminate Htrue |].
      vm_compute in Hh. injection Hh as <-. reflexivity.
Defined.

(** X16.  A feed that is handed over has the feed URL as its id, the
    language of the unit, and exactly two links: the alternate link, to
    PODCAST_CHANNEL_LINK when that is truthy and to SITE_URL otherwise,
    titled like the feed, and the self link to the feed URL. *)
Theorem channel_has_two_links
    (host : Host) (cfg : gmap string value) (lang : string)
    (posts : list Post) (output_name feed_url : string) (log : list event)
    (doc : FeedGenerator) :
  fst (render_podcast_rss host cfg lang posts output_name feed_url log)
    = Ok doc ->
  fg_id doc = feed_url /\ fg_language doc = lang /\
  exists override target,
    cfg !! "PODCAST_CHANNEL_LINK" = Some override /\
    ((truthy override = true /\ target = override) \/
     (truthy override = false /\ cfg !! "SITE_URL" = Some target)) /\
    fg_links doc = [ {| href := target; link_title := fg_title doc;
                        rel := "alternate" |};
                     {| href := VStr feed_url; link_title := VNone;
                        rel := "self" |} ].
Proof.
  intros H. apply render_Ok_channel in H
    as (fg & Hc & -> & -> & -> & _ & -> & _).
  apply render_channel_fields in Hc
    as (title & link & description & category & logo & _ & Hl & _ & _ & _
        & -> & -> & -> & _ & -> & _).
  split; [reflexivity |]. split; [reflexivity |].
  unfold channel_link in Hl.
  apply py_or_Ok in Hl as [[Ha Ht] | (x & Ha & Ht & Hb)];
    apply getitem_Ok in Ha.
  - exists link, link. auto.
  - apply getitem_Ok in Hb. exists x, link. auto.
Qed.

Lemma channel_has_two_links_witness :
  fg_links (rendered sample_config [episode1])
    = [ {| href := VStr "https://example.org/";
           link_title := VStr "Radio Notes"; rel := "alternate" |};
        {| href := VStr "https://example.org/podcast.xml";
           link_title := VNone; rel := "self" |} ].
Proof.
  destruct (channel_has_two_links sample_host sample_config "en" [episode1]
              "output/podcast.xml" "https://example.org/podcast.xml" []
              (rendered sample_config [episode1]))
    as (_ & _ & override & target & Hov & Hcases & ->).
  - vm_compute. reflexivity.
  - vm_compute in Hov. injection Hov as <-.
    destruct Hcases as [[Htrue _] | [_ Hsite]]; [discriminate Htrue |].
    vm_compute in Hsite. injection Hsite as <-. reflexivity.
Defined.

(** X17.  The icon and the logo of a feed that is handed over are always
    the same: PODCAST_CHANNEL_LOGO when that is truthy, else LOGO_URL when
    that is truthy, else none of the two is set. *)
Theorem icon_and_logo_agree
    (host : Host) (cfg : gmap string value) (lang : string)
    (posts : list Post) (output_name feed_url : string) (log : list event)
    (doc : FeedGenerator) :
  fst (render_podcast_rss host cfg lang posts output_name feed_url log)
    = Ok doc ->
  fg_icon doc = fg_logo doc /\
  exists own,
    cfg !! "PODCAST_CHANNEL_LOGO" = Some own /\
    ((truthy own = true /\ fg_logo doc = Some own) \/
     (truthy own = false /\
      exists site_logo,
        cfg !! "LOGO_URL" = Some site_logo /\
        fg_logo doc = if truthy site_logo then Some site_logo else None)).
Proof.
  intros H. apply render_Ok_channel in H
    as (fg & Hc & _ & _ & _ & _ & _ & _ & -> & ->).
  apply render_channel_fields in Hc
    as (title & link & description & category & logo & _ & _ & _ & _ & Hl
        & _ & _ & _ & _ & _ & _ & Hicon & Hlogo).
  split; [congruence |]. rewrite Hlogo, Hicon.
  apply py_or_Ok in Hl as [[Ha Ht] | (x & Ha & Ht & Hb)];
    apply getitem_Ok in Ha.
  - exists logo. split; [exact Ha |]. left. rewrite Ht. auto.
  - apply getitem_Ok in Hb. exists x. split; [exact Ha |]. right.
    split; [exact Ht |]. eauto.
Qed.

Lemma icon_and_logo_agree_witness :
  fg_icon (rendered logo_config [episode1])
    = Some (VStr "https://example.org/logo.png") /\
  fg_logo (rendered sample_config [episode1]) = None.
Proof.
  split.
  - destruct (icon_and_logo_agree sample_host logo_config "en"
                [episode1] "output/podcast.xml"
                "https://example.org/podcast.xml" []
                (rendered logo_config [episode1]))
      as (-> & own & Hown & Hcases).
    + vm_compute. reflexivity.
    + vm_compute in Hown. injection Hown as <-.
      destruct Hcases as [[Htrue _] | [_ (site_logo & Hs & ->)]];
        [discriminate Htrue |].
      vm_compute in Hs. injection Hs as <-. reflexivity.
  - destruct (icon_and_logo_agree sample_host sample_config "en"
                [episode1] "output/podcast.xml"
                "https://example.org/podcast.xml" []
                (rendered sample_config [episode1]))
      as (_ & own & Hown & Hcases).
    + vm_compute. reflexivity.
    + vm_compute in Hown. injection Hown as <-.
      destruct Hcases as [[Htrue _] | [_ (site_logo & Hs & ->)]];
        [discriminate Htrue |].
      vm_compute in Hs. injection Hs as <-. reflexivity.
Defined.

Lemma join_non_string (sep : string) (items : list value) :
  Exists (fun v => forall s, v <> VStr s) items ->
  join sep items = Raise (TypeError "sequence item: expected str instance").
Proof.
  induction 1 as [v items Hv | v items Hex IH].
  - destruct v; try reflexivity. destruct (Hv s). reflexivity.
  - destruct v; try reflexivity. cbn [join]. rewrite IH.
    destruct items; [inversion Hex | reflexivity].
Qed.

(** X18.  Without a category nothing is passed on: when the channel's
    category setting for the language is falsy, as it is by default, a feed
    that is handed over has no category. *)
Theorem no_category_unless_configured
    (host : Host) (cfg : gmap string value) (lang : string)
    (posts : list Post) (output_name feed_url : string) (log : list event)
    (doc : FeedGenerator) (f : string -> value) :
  fst (render_podcast_rss host cfg lang posts output_name feed_url log)
    = Ok doc ->
  cfg !! "PODCAST_CHANNEL_CATEGORY" = Some (VTrans f) ->
  truthy (f lang) = false ->
  fg_category doc = None.
Proof.
  intros H Hf Hfalse. apply render_Ok_channel in H
    as (fg & Hc & _ & _ & _ & _ & _ & -> & _).
  apply render_channel_fields in Hc
    as (title & link & description & category & logo & _ & _ & _ & Hcat & _
        & _ & _ & _ & _ & _ & Hcategory & _).
  apply setting_Ok in Hcat as (f' & Hf' & <-).
  rewrite Hf in Hf'. injection Hf' as <-.
  rewrite Hfalse in Hcategory. exact Hcategory.
Qed.

Lemma no_category_unless_configured_witness :
  fg_category (rendered sample_config [episode1]) = None.
Proof.
  apply (no_category_unless_configured sample_host sample_config "en"
           [episode1] "output/podcast.xml"
           "https://example.org/podcast.xml" []
           (rendered sample_config [episode1])
           (sample_translatable "PODCAST_CHANNEL_CATEGORY" VNone
              (VDict [("en", VStr ""); ("es", VStr "./es")]))).
  - vm_compute. reflexivity.
  - vm_compute. reflexivity.
  - reflexivity.
Defined.

(** X19.  A category that holds anything but strings stops the rendering:
    once title, link, description and author of the channel resolve, a
    truthy category setting with an item that is not a string makes
    [render_podcast_rss] raise TypeError, and no feed is handed over. *)
Theorem category_items_must_be_strings
    (host : Host) (cfg : gmap string value) (lang : string)
    (posts : list Post) (output_name feed_url : string) (log : list event)
    (title link description author : value)
    (f : string -> value) (items : list value) :
  channel_title cfg lang = Ok title ->
  channel_link cfg = Ok link ->
  channel_description cfg lang = Ok description ->
  channel_author cfg lang = Ok author ->
  cfg !! "PODCAST_CHANNEL_CATEGORY" = Some (VTrans f) ->
  truthy (f lang) = true ->
  iterate (f lang) = Ok items ->
  Exists (fun v => forall s, v <> VStr s) items ->
  render_podcast_rss host cfg lang posts output_name feed_url log
    = (Raise (TypeError "sequence item: expected str instance"), log).
Proof.
  intros Ht Hl Hd Ha Hf Htruthy Hiter Hex.
  apply render_channel_raises. unfold render_channel.
  rewrite Ht, Hl, Hd, Ha. cbn [bind].
  assert (Hs : setting cfg "PODCAST_CHANNEL_CATEGORY" lang = Ok (f lang)).
  { apply setting_Ok. eauto. }
  rewrite Hs. cbn [bind]. rewrite Htruthy, Hiter. cbn [bind].
  rewrite (join_non_string "/" items Hex). reflexivity.
Qed.

Lemma category_items_must_be_strings_witness :
  render_podcast_rss sample_host number_category_config "en" [episode1]
    "output/podcast.xml" "https://example.org/podcast.xml" []
    = (Raise (TypeError "sequence item: expected str instance"), []).
Proof.
  apply (category_items_must_be_strings sample_host number_category_config
           "en" [episode1] "output/podcast.xml"
           "https://example.org/podcast.xml" []
           (VStr "Radio Notes") (VStr "https://example.org/")
           (VStr "Notes on radio")
           (VDict [("name", VStr "Site Author");
                   ("email", VStr "site@example.org")])
           (sample_translatable "PODCAST_CHANNEL_CATEGORY"
              (VList [VStr "Arts"; VInt 7])
              (VDict [("en", VStr ""); ("es", VStr "./es")]))
           [VStr "Arts"; VInt 7]).
  - vm_compute. reflexivity.
  - vm_compute. reflexivity.
  - vm_compute. reflexivity.
  - vm_compute. reflexivity.
  - vm_compute. reflexivity.
  - reflexivity.
  - reflexivity.
  - apply Exists_cons_tl. apply Exists_cons_hd. intros s. discriminate.
Defined.

(** ** The task generator *)

Section GeneratorFacts.

Variable host : Host.
Variable site : Site.
Variable cfg : gmap string value.

Lemma matching_posts_Ok (lang : string) (posts matches : list Post) :
  matching_posts site cfg lang posts = Ok matches ->
  (posts = [] /\ matches = []) \/
  exists category,
    cfg !! "PODCAST_POST_CATEGORY" = Some category /\
    matches = List.filter (category_test site lang category) posts.
Proof.
  revert matches. induction posts as [| p posts IH]; intros matches H.
  - injection H as <-. left. auto.
  - right. cbn [matching_posts] in H. bind_inv H. bind_inv H.
    apply getitem_Ok in Hx. injection H as <-.
    exists x. split; [exact Hx |].
    destruct (IH x0 Hx0) as [[-> ->] | (category & Hc & ->)].
    + reflexivity.
    + rewrite Hx in Hc. injection Hc as <-. reflexivity.
Qed.

Lemma matching_posts_sublist (lang : string) (posts matches : list Post) :
  matching_posts site cfg lang posts = Ok matches -> sublist matches posts.
Proof.
  intros H. apply matching_posts_Ok in H as [[-> ->] | (c & _ & ->)].
  - constructor.
  - apply filter_sublist.
Qed.

Lemma matching_posts_string (lang category : string) (posts : list Post) :
  cfg !! "PODCAST_POST_CATEGORY" = Some (VStr category) ->
  matching_posts site cfg lang posts
    = Ok (List.filter (in_category lang category) posts).
Proof.
  intros Hc. induction posts as [| p posts IH]; [reflexivity |].
  cbn [matching_posts]. unfold getitem at 1. rewrite Hc. cbn [bind].
  rewrite IH. reflexivity.
Qed.

Lemma build_task_fields (lang : string) (task : Task) :
  build_task host site cfg lang = Ok task ->
  exists base link feed_url folder path output_name matches feed_length
         posts,
    cfg !! "BASE_URL" = Some base /\
    site_link site lang = Ok link /\
    join_url host site base (lstrip "/" link) = Ok feed_url /\
    cfg !! "OUTPUT_FOLDER" = Some folder /\
    site_path site lang = Ok path /\
    os_path_join site folder path = Ok output_name /\
    matching_posts site cfg lang (site_posts site) = Ok matches /\
    cfg !! "FEED_LENGTH" = Some feed_length /\
    slice_to matches feed_length = Ok posts /\
    task_action task = (lang, posts, output_name, feed_url) /\
    task_name task = normpath site output_name /\
    task_targets task = [output_name] /\
    task_file_dep task = flat_map (fun p => post_deps p lang) posts /\
    task_uptodate task
      = flat_map (fun p => post_deps_uptodate p lang) posts.
Proof.
  unfold build_task. intros H. do 9 bind_inv H.
  apply getitem_Ok in Hx, Hx2, Hx6. injection H as <-. simpl.
  exists x, x0, x1, x2, x3, x4, x5, x6, x7. auto 20.
Qed.

Lemma feed_tasks_run (entries : list (string * value)) :
  exists tasks,
    fst (feed_tasks host site cfg (map (fun kv => VStr (fst kv)) entries))
      = map FeedTask tasks /\
    Forall2 (fun kv task =>
               feed_task host site cfg (VStr (fst kv)) = Ok task)
            (take (length tasks) entries) tasks /\
    match snd (feed_tasks host site cfg
                 (map (fun kv => VStr (fst kv)) entries)) with
    | Ok _ => length tasks = length entries
    | Raise e =>
        exists kv,
          entries !! length tasks = Some kv /\
          feed_task host site cfg (VStr (fst kv)) = Raise e
    end.
Proof.
  induction entries as [| kv entries IH].
  - exists []. simpl. repeat split. constructor.
  - cbn [map feed_tasks].
    destruct (feed_task host site cfg (VStr (fst kv))) as [task | e] eqn:Ht.
    + destruct IH as (tasks & Hy & Hall & Hend).
      destruct (feed_tasks host site cfg
                  (map (fun kv => VStr (fst kv)) entries))
        as [more outcome].
      simpl in Hy, Hend |- *. subst more.
      exists (task :: tasks). simpl. split; [reflexivity |].
      split; [constructor; assumption |].
      destruct outcome; [congruence | exact Hend].
    + exists []. simpl. split; [reflexivity |].
      split; [constructor |]. exists kv. auto.
Qed.

End GeneratorFacts.

(** X20.  With a TRANSLATIONS dict, [gen_tasks] yields the group task and
    then one feed task per language, in the order of the dict, each the
    filtered task of its language.  It stops at the first language whose
    task raises: the tasks of the languages before it stay yielded, and the
    generator ends with that exception. *)
Theorem gen_tasks_yields_a_task_per_language
    (host : Host) (site : Site) (cfg : gmap string value)
    (entries : list (string * value)) :
  cfg !! "TRANSLATIONS" = Some (VDict entries) ->
  exists tasks,
    fst (gen_tasks host site cfg) = GroupTask :: map FeedTask tasks /\
    Forall2 (fun kv task =>
               feed_task host site cfg (VStr (fst kv)) = Ok task)
            (take (length tasks) entries) tasks /\
    match snd (gen_tasks host site cfg) with
    | Ok _ => length tasks = length entries
    | Raise e =>
        exists kv,
          entries !! length tasks = Some kv /\
          feed_task host site cfg (VStr (fst kv)) = Raise e
    end.
Proof.
  intros Htr. unfold gen_tasks, getitem. rewrite Htr. cbn [bind iterate].
  destruct (feed_tasks_run host site cfg entries)
    as (tasks & Hy & Hall & Hend).
  exists tasks.
  destruct (feed_tasks host site cfg (map (fun kv => VStr (fst kv)) entries))
    as [more outcome].
  simpl in Hy, Hend |- *. subst more. auto.
Qed.

Lemma gen_tasks_yields_a_task_per_language_witness :
  let entries := [("en", VStr ""); ("es", VStr "./es")] in
  snd (gen_tasks sample_host sample_site task_config) = Ok tt /\
  exists tasks,
    fst (gen_tasks sample_host sample_site task_config)
      = GroupTask :: map FeedTask tasks /\
    Forall2 (fun kv task =>
               feed_task sample_host sample_site task_config
                 (VStr (fst kv)) = Ok task)
            (take (length tasks) entries) tasks /\
    match snd (gen_tasks sample_host sample_site task_config) with
    | Ok _ => length tasks = length entries
    | Raise e =>
        exists kv,
          entries !! length tasks = Some kv /\
          feed_task sample_host sample_site task_config (VStr (fst kv))
            = Raise e
    end.
Proof.
  intros entries. split; [vm_compute; reflexivity |].
  apply (gen_tasks_yields_a_task_per_language sample_host sample_site
           task_config entries).
  vm_compute. reflexivity.
Defined.

(** Without BASE_URL the first language already fails: the group task is
    all that is yielded. *)
Example gen_tasks_without_base_url :
  gen_tasks sample_host sample_site sample_config
    = ([GroupTask], Raise (KeyError "BASE_URL")).
Proof. vm_compute. reflexivity. Qed.

(** X21.  The posts a task renders are the selection of the claims: with a
    string for PODCAST_POST_CATEGORY, the posts handed to the action are
    [select_posts] of the site's posts for the language, that category and
    the configured FEED_LENGTH, and the action is for that language. *)
Theorem task_posts_are_the_selection
    (host : Host) (site : Site) (cfg : gmap string value)
    (lang category : string) (task : Task) :
  cfg !! "PODCAST_POST_CATEGORY" = Some (VStr category) ->
  build_task host site cfg lang = Ok task ->
  task_lang task = lang /\
  exists feed_length,
    cfg !! "FEED_LENGTH" = Some feed_length /\
    select_posts (site_posts site) lang category feed_length
      = Ok (task_posts task).
Proof.
  intros Hc Hb. apply build_task_fields in Hb
    as (base & link & feed_url & folder & path & output_name & matches
        & feed_length & posts & _ & _ & _ & _ & _ & _ & Hm & Hlen & Hs
        & Hact & _).
  unfold task_lang, task_posts. rewrite Hact. split; [reflexivity |].
  exists feed_length. split; [exact Hlen |].
  rewrite (matching_posts_string site cfg lang category _ Hc) in Hm.
  injection Hm as <-. exact Hs.
Qed.

Lemma task_posts_are_the_selection_witness :
  task_lang sample_task = "en" /\
  exists feed_length,
    task_config !! "FEED_LENGTH" = Some feed_length /\
    select_posts (site_posts sample_site) "en" "podcast" feed_length
      = Ok (task_posts sample_task).
Proof.
  apply (task_posts_are_the_selection sample_host sample_site task_config
           "en" "podcast" sample_task);
    vm_compute; reflexivity.
Defined.

Example sample_task_posts :
  task_posts sample_task = [anonymous_episode; episode1].
Proof. vm_compute. reflexivity. Qed.

(** X22.  A task depends on its selected posts and on nothing else: its
    file dependencies and its up-to-date tokens are those of the posts
    handed to the action, post after post; every dependency comes from a
    selected post of the site; and the file the action writes is the task's
    only target, whose normalised path names the task. *)
Theorem task_depends_on_its_posts_only
    (host : Host) (site : Site) (cfg : gmap string value)
    (lang : string) (task : Task) :
  build_task host site cfg lang = Ok task ->
  task_file_dep task
    = flat_map (fun p => post_deps p lang) (task_posts task) /\
  task_uptodate task
    = flat_map (fun p => post_deps_uptodate p lang) (task_posts task) /\
  sublist (task_posts task) (site_posts site) /\
  (forall dep, In dep (task_file_dep task) ->
     exists p, In p (task_posts task) /\ In p (site_posts site) /\
               In dep (post_deps p lang)) /\
  task_targets task = [task_output_name task] /\
  task_name task = normpath site (task_output_name task).
Proof.
  intros Hb. apply build_task_fields in Hb
    as (base & link & feed_url & folder & path & output_name & matches
        & feed_length & posts & _ & _ & _ & _ & _ & _ & Hm & _ & Hs
        & Hact & Hname & Htargets & Hdeps & Hup).
  unfold task_posts, task_output_name. rewrite Hact.
  assert (Hsub : sublist posts (site_posts site)).
  { apply slice_to_prefix in Hs as [n ->].
    transitivity matches; [apply sublist_take |].
    apply (matching_posts_sublist site cfg lang _ _ Hm). }
  repeat (split; [assumption |]).
  split; [| split; assumption].
  intros dep Hdep. rewrite Hdeps in Hdep.
  apply in_flat_map in Hdep as (p & Hp & Hd).
  exists p. split; [exact Hp |]. split; [| exact Hd].
  apply list_elem_of_In. eapply elem_of_sublist; [| exact Hsub].
  apply list_elem_of_In. exact Hp.
Qed.

Lemma task_depends_on_its_posts_only_witness :
  task_file_dep sample_task = ["posts/anonymous.rst"] /\
  ~ In "posts/essay.rst" (task_file_dep sample_task) /\
  task_targets sample_task = ["output/podcast.xml"].
Proof.
  destruct (task_depends_on_its_posts_only sample_host sample_site
              task_config "en" sample_task)
    as (Hdeps & _ & _ & Hfrom & Htargets & _);
    [vm_compute; reflexivity |].
  split; [rewrite Hdeps; vm_compute; reflexivity |]. split.
  - intros Hin. destruct (Hfrom _ Hin) as (p & Hp & _ & Hd).
    vm_compute in Hp. destruct Hp as [<- | [<- | []]]; vm_compute in Hd.
    + destruct Hd as [Hd | []]. discriminate Hd.
    + destruct Hd.
  - rewrite Htargets. vm_compute. reflexivity.
Defined.

(** X23.  The feed of a task never exceeds the configured length: for a
    FEED_LENGTH [n >= 0], a feed that [render_podcast_rss] hands over for
    the posts of the task has at most [n] entries, one for each post of the
    task. *)
Theorem feed_has_at_most_feed_length_entries
    (host : Host) (site : Site) (cfg : gmap string value) (lang : string)
    (task : Task) (n : Z) (output_name feed_url : string)
    (log : list event) (doc : FeedGenerator) :
  build_task host site cfg lang = Ok task ->
  cfg !! "FEED_LENGTH" = Some (VInt n) ->
  0 <= n ->
  fst (render_podcast_rss host cfg lang (task_posts task) output_name
         feed_url log) = Ok doc ->
  (length (fg_entries doc) <= Z.to_nat n)%nat /\
  length (fg_entries doc) = length (task_posts task) /\
  map fe_title (fg_entries doc)
    ≡ₚ map (fun p => post_title p lang) (task_posts task).
Proof.
  intros Hb Hlen Hn Hr. apply build_task_fields in Hb
    as (base & link & url & folder & path & out & matches
        & feed_length & posts & _ & _ & _ & _ & _ & _ & _ & Hlen' & Hs
        & Hact & _).
  unfold task_posts in *. rewrite Hact in *.
  rewrite Hlen in Hlen'. injection Hlen' as <-.
  apply render_Ok in Hr as (fg & es & _ & Hes & _ & ->).
  assert (Hcount : length es = length posts)
    by (symmetry; eapply Forall2_length; exact Hes).
  split; [| split; [exact Hcount |]].
  - rewrite Hcount.
    unfold slice_to in Hs. destruct (0 <=? n) eqn:E;
      [| apply Z.leb_gt in E; lia].
    injection Hs as <-. rewrite length_take. lia.
  - assert (Heq : map fe_title es = map (fun p => post_title p lang) posts).
    { pose proof (entries_as_posts host cfg lang posts es Hes) as Hm.
      apply (f_equal (map fst)) in Hm. rewrite !List.map_map in Hm.
      exact Hm. }
    rewrite Heq. reflexivity.
Qed.

Lemma feed_has_at_most_feed_length_entries_witness :
  let doc := rendered task_config (task_posts sample_task) in
  (length (fg_entries doc) <= Z.to_nat 2)%nat /\
  length (fg_entries doc) = length (task_posts sample_task) /\
  map fe_title (fg_entries doc)
    ≡ₚ map (fun p => post_title p "en") (task_posts sample_task).
Proof.
  intros doc.
  apply (feed_has_at_most_feed_length_entries sample_host sample_site
           task_config "en" sample_task 2 "output/podcast.xml"
           "https://example.org/podcast.xml" []).
  - vm_compute. reflexivity.
  - vm_compute. reflexivity.
  - lia.
  - vm_compute. reflexivity.
Defined.

Lemma set_site_other_key (host : Host) (site_config cfg : gmap string value)
    (key : string) :
  set_site host site_config = Ok cfg ->
  ~ In key ["PODCAST_CHANNEL_TITLE"; "PODCAST_CHANNEL_DESCRIPTION";
            "PODCAST_CHANNEL_CATEGORY"] ->
  cfg !! key = (site_config ∪ default_config) !! key.
Proof.
  intros Hset Hkey.
  destruct (set_site_Ok_translations host site_config cfg Hset) as [tr Htr].
  rewrite (set_site_run host site_config tr Htr) in Hset.
  injection Hset as <-. simpl in Hkey.
  rewrite !lookup_insert_ne by (intros <-; tauto). reflexivity.
Qed.

(** X24.  A site that does not set PODCAST_POST_CATEGORY gets the feed of
    the category "podcast": with the configuration [set_site] returns, the
    posts of a language's task are the selection of the site's posts for
    the category "podcast" and the site's FEED_LENGTH. *)
Theorem default_category_is_podcast
    (host : Host) (site : Site) (site_config cfg : gmap string value)
    (lang : string) (task : Task) :
  set_site host site_config = Ok cfg ->
  site_config !! "PODCAST_POST_CATEGORY" = None ->
  build_task host site cfg lang = Ok task ->
  exists feed_length,
    site_config !! "FEED_LENGTH" = Some feed_length /\
    select_posts (site_posts site) lang "podcast" feed_length
      = Ok (task_posts task).
Proof.
  intros Hset Hnone Hb.
  assert (Hcat : cfg !! "PODCAST_POST_CATEGORY" = Some (VStr "podcast")).
  { rewrite (set_site_other_key host site_config cfg _ Hset)
      by (simpl; intros [H | [H | [H | []]]]; discriminate H).
    rewrite lookup_union, Hnone. reflexivity. }
  assert (Hlen : cfg !! "FEED_LENGTH" = site_config !! "FEED_LENGTH").
  { rewrite (set_site_other_key host site_config cfg _ Hset)
      by (simpl; intros [H | [H | [H | []]]]; discriminate H).
    apply merged_lookup_site. reflexivity. }
  apply build_task_fields in Hb
    as (base & link & feed_url & folder & path & output_name & matches
        & feed_length & posts & _ & _ & _ & _ & _ & _ & Hm & Hlen' & Hs
        & Hact & _).
  unfold task_posts. rewrite Hact.
  exists feed_length. split; [congruence |].
  rewrite (matching_posts_string site cfg lang "podcast" _ Hcat) in Hm.
  injection Hm as <-. exact Hs.
Qed.

Lemma default_category_is_podcast_witness :
  exists feed_length,
    task_site_config !! "FEED_LENGTH" = Some feed_length /\
    select_posts (site_posts sample_site) "en" "podcast" feed_length
      = Ok (task_posts sample_task).
Proof.
  apply (default_category_is_podcast sample_host sample_site
           task_site_config task_config "en" sample_task).
  - unfold task_config, config_of.
    rewrite (set_site_run sample_host task_site_config
               (VDict [("en", VStr ""); ("es", VStr "./es")]))
      by (vm_compute; reflexivity).
    reflexivity.
  - vm_compute. reflexivity.
  - vm_compute. reflexivity.
Defined.

Lemma lstrip_no_leading (c : ascii) (s rest : string) :
  lstrip c s <> String c rest.
Proof.
  induction s as [| a s IH]; simpl; [discriminate |].
  destruct (Ascii.eqb a c) eqn:E; [exact IH |].
  intros [= -> _]. rewrite Ascii.eqb_refl in E. discriminate E.
Qed.

(** X25.  With a string for BASE_URL, the feed URL of a task is that base
    joined with the site's link to the feed after all its leading slashes
    are removed, so what is joined never starts with a slash. *)
Theorem feed_url_joins_a_relative_link
    (host : Host) (site : Site) (cfg : gmap string value)
    (lang base : string) (task : Task) :
  cfg !! "BASE_URL" = Some (VStr base) ->
  build_task host site cfg lang = Ok task ->
  exists link,
    site_link site lang = Ok link /\
    task_feed_url task = VStr (urljoin host base (lstrip "/" link) true) /\
    forall rest, lstrip "/" link <> String "/" rest.
Proof.
  intros Hbase Hb. apply build_task_fields in Hb
    as (base' & link & feed_url & folder & path & output_name & matches
        & feed_length & posts & Hbase' & Hlink & Hjoin & _ & _ & _ & _ & _
        & _ & Hact & _).
  rewrite Hbase in Hbase'. injection Hbase' as <-.
  simpl in Hjoin. injection Hjoin as <-.
  exists link. split; [exact Hlink |].
  unfold task_feed_url. rewrite Hact. split; [reflexivity |].
  intros rest. apply lstrip_no_leading.
Qed.

Lemma feed_url_joins_a_relative_link_witness :
  task_feed_url sample_task = VStr "https://example.org/podcast.xml".
Proof.
  destruct (feed_url_joins_a_relative_link sample_host sample_site
              task_config "en" "https://example.org/" sample_task)
    as (link & Hlink & -> & _).
  - vm_compute. reflexivity.
  - vm_compute. reflexivity.
  - vm_compute in Hlink. injection Hlink as <-. reflexivity.
Defined.
